(** * LoveCare scoring engine: a shallow embedding and its properties

    Source files embedded here:
    - [backend/app/service/scoring.py]: the scoring engine
      (numeric primitives, [ScoringConfig], the four calculators and
      [generate_report]);
    - [main.py]: the endpoints [/analysis/calculate]
      ([calculate_metrics]), [/auth/register] and [/auth/login].

    Number model.  The series of the engine are lists of floats, and the
    fields [day], [mood], [stress] and [energy] of a request are
    integers.  Both are embedded as exact rationals [Q]: [+], [-], [*]
    are the field operations, [/] is the field division guarded by
    Python's [ZeroDivisionError], [x ** 2] raises [OverflowError] when
    the square is beyond the largest float, comparisons are the order of
    [Q], and [round(x, n)] is rounding of the exact value to [n]
    decimals, ties to even.  Binary rounding error, NaN and infinities
    are outside this model: a statement that depends on an exactly
    computed value says so in its hypotheses.  Results are compared with
    [==] ([Qeq]) where a value is computed, and with [=] where the code
    returns a literal.

    The database is the session that the endpoints see: the rows of
    [users] and of [mood_logs].  A commit appends rows, and it fails with
    [DataError] on an integer that its [Integer] column cannot hold.

    [math.sqrt] is a function of Python's library: it is a parameter
    [sqrtQ] of the development, raising [ValueError] on a negative
    argument as [math.sqrt] does. *)

From stdpp Require Import gmap strings.
From Stdlib Require Import QArith Qround Qminmax Qabs Lqa Sorted Ascii.

Open Scope Q_scope.

(** ** Exceptions and the error monad *)

Inductive exn : Type :=
  | ZeroDivisionError
  | ValueError
  | KeyError (key : string)
  | OverflowError
  | IndexError
  | DataError
  | HTTPException (status_code : Z) (detail : string).

Inductive result (A : Type) : Type :=
  | Ok (a : A)
  | Raise (e : exn).
Arguments Ok {A} a.
Arguments Raise {A} e.

#[global] Instance result_ret : MRet result := fun _ a => Ok a.
#[global] Instance result_bind : MBind result := fun _ _ f m =>
  match m with
  | Ok a => f a
  | Raise e => Raise e
  end.

(** [returns m]: the computation [m] ends with a value, no exception. *)
Definition returns {A} (m : result A) : Prop := exists a, m = Ok a.

(** ** Python's arithmetic on the number model *)

(** [a / b]: true division. *)
Definition py_div (a b : Q) : result Q :=
  if Qeq_bool b 0 then Raise ZeroDivisionError else Ok (a / b).

(** The least magnitude that rounds to infinity in binary64: the largest
    float plus half a unit in its last place. *)
Definition float_overflow : Q := inject_Z (2 ^ 1024 - 2 ^ 970).

(** [x ** n] on floats, for a positive integer [n]: [OverflowError] when
    the power is too large for a float. *)
Definition py_pow (x : Q) (n : positive) : result Q :=
  let y := x ^ Zpos n in
  if Qle_bool float_overflow (Qabs y) then Raise OverflowError else Ok y.

(** [sum(xs)]: left fold from [0]. *)
Definition py_sum (xs : list Q) : Q := fold_left Qplus xs 0.

(** [len(xs)] as a number. *)
Definition py_len {A} (xs : list A) : Q := inject_Z (Z.of_nat (length xs)).

(** [a > b] as a boolean. *)
Definition Qgt_bool (a b : Q) : bool := negb (Qle_bool a b).

(** [round(x, ndigits)]: [x] rounded to [ndigits] decimals, a tie going to
    the even last digit. *)
Definition py_round (x : Q) (ndigits : nat) : Q :=
  let scale := inject_Z (10 ^ Z.of_nat ndigits) in
  let y := x * scale in
  let lo := Qfloor y in
  let frac := y - inject_Z lo in
  let k :=
    match frac ?= 1 # 2 with
    | Lt => lo
    | Gt => (lo + 1)%Z
    | Eq => if Z.even lo then lo else (lo + 1)%Z
    end in
  inject_Z k / scale.

(** ** Utility functions *)

(** [clamp]: [max(lo, min(hi, x))].  Python's [max(a, b)] is [a] unless
    [b > a], and [min(a, b)] is [a] unless [b < a], as [Qmax] and [Qmin]. *)
Definition clamp (x lo hi : Q) : Q := Qmax lo (Qmin hi x).

Definition mean (xs : list Q) : result Q :=
  match xs with
  | [] => Ok 0
  | _ => py_div (py_sum xs) (py_len xs)
  end.

(** [abs(xs[i] - xs[i - 1]) for i in range(1, len(xs))] *)
Fixpoint abs_deltas (xs : list Q) : list Q :=
  match xs with
  | x :: (y :: _) as tl => Qabs (y - x) :: abs_deltas tl
  | _ => []
  end.

Definition avg_abs_delta (xs : list Q) : result Q :=
  if (length xs <? 2)%nat then Ok 0
  else py_div (py_sum (abs_deltas xs)) (py_len xs - 1).

(** The loop of [linear_trend_slope]: [t] is the index of the head of
    [xs], [acc] holds [(num, den)]. *)
Fixpoint slope_sums (t_mean x_mean : Q) (t : Z) (xs : list Q) (acc : Q * Q)
  : Q * Q :=
  match xs with
  | [] => acc
  | x :: xs' =>
      let dt := inject_Z t - t_mean in
      let dx := x - x_mean in
      slope_sums t_mean x_mean (t + 1) xs' (acc.1 + dt * dx, acc.2 + dt * dt)
  end.

Definition linear_trend_slope (xs : list Q) : result Q :=
  let n := py_len xs in
  if (length xs <? 2)%nat then Ok 0
  else
    t_mean ← py_div (n - 1) 2;
    x_mean ← mean xs;
    let '(num, den) := slope_sums t_mean x_mean 0 xs (0, 0) in
    if negb (Qeq_bool den 0) then py_div num den else Ok 0.

Definition normalize_0_100 (x x_min x_max : Q) : result Q :=
  if Qle_bool x_max x_min then Ok 0
  else
    r ← py_div (x - x_min) (x_max - x_min);
    Ok (clamp (r * 100) 0 100).

(** ** Configuration *)

Record ScoringConfig : Type := {
  vol_w_std : Q;
  vol_w_jump : Q;
  mood_std_min : Q;
  mood_std_max : Q;
  mood_jump_min : Q;
  mood_jump_max : Q;
  stress_decay : Q;
  risk_w_stress : Q;
  risk_w_sleep_deficit : Q;
  risk_w_energy_deficit : Q;
  risk_w_mood_downtrend : Q;
  sleep_target : Q;
  risk_raw_min : Q;
  risk_raw_max : Q;
  green_max : Q;
  yellow_max : Q
}.

Definition DEFAULT_CFG : ScoringConfig := {|
  vol_w_std := 0.6;
  vol_w_jump := 0.4;
  mood_std_min := 0;
  mood_std_max := 3.5;
  mood_jump_min := 0;
  mood_jump_max := 4;
  stress_decay := 0.8;
  risk_w_stress := 0.45;
  risk_w_sleep_deficit := 0.20;
  risk_w_energy_deficit := 0.25;
  risk_w_mood_downtrend := 0.10;
  sleep_target := 8;
  risk_raw_min := 0;
  risk_raw_max := 10;
  green_max := 33;
  yellow_max := 66
|}.

(** ** Stress accumulation *)

Record AccumulationResult : Type := {
  accumulation_curve : list Q;
  accumulation_trend_slope : Q;
  latest_accumulation : Q
}.

(** The loop [for s in stress: prev = decay * prev + s; curve.append(prev)]. *)
Fixpoint accumulate (decay prev : Q) (stress : list Q) : list Q :=
  match stress with
  | [] => []
  | s :: stress' =>
      let prev' := decay * prev + s in
      prev' :: accumulate decay prev' stress'
  end.

Definition calculate_stress_accumulation (stress : list Q) (cfg : ScoringConfig)
  : result AccumulationResult :=
  let decay := clamp (stress_decay cfg) 0 0.99 in
  let curve := accumulate decay 0 stress in
  slope ← linear_trend_slope curve;
  Ok {| accumulation_curve := map (fun x => py_round x 3) curve;
        accumulation_trend_slope := py_round slope 4;
        latest_accumulation :=
          match curve with
          | [] => 0
          | _ => py_round (List.last curve 0) 3
          end |}.

(** ** Burnout risk *)

Inductive Label : Type := Green | Yellow | Red.

(** The quantities of [calculate_burnout_risk] up to [risk_score]. *)
Record RiskTerms : Type := {
  avg_stress : Q;
  avg_sleep : Q;
  avg_energy : Q;
  sleep_deficit : Q;
  energy_deficit : Q;
  mood_slope : Q;
  mood_downtrend : Q;
  stress_term : Q;
  sleep_term : Q;
  energy_term : Q;
  mood_term : Q;
  risk_raw : Q;
  risk_score : Q
}.

Definition risk_terms (mood stress sleep energy : list Q) (cfg : ScoringConfig)
  : result RiskTerms :=
  avg_stress ← mean stress;
  avg_sleep ← mean sleep;
  avg_energy ← mean energy;
  let sleep_deficit := Qmax 0 (sleep_target cfg - avg_sleep) in
  let energy_deficit := Qmax 0 (10 - avg_energy) in
  mood_slope ← linear_trend_slope mood;
  let mood_downtrend := Qmax 0 (- mood_slope) in
  let stress_term := risk_w_stress cfg * avg_stress in
  let sleep_term := risk_w_sleep_deficit cfg * (sleep_deficit * 2) in
  half_energy ← py_div energy_deficit 2;
  let energy_term := risk_w_energy_deficit cfg * half_energy in
  let mood_term := risk_w_mood_downtrend cfg * (mood_downtrend * 5) in
  let risk_raw := stress_term + sleep_term + energy_term + mood_term in
  risk_score ← normalize_0_100 risk_raw (risk_raw_min cfg) (risk_raw_max cfg);
  Ok {| avg_stress := avg_stress; avg_sleep := avg_sleep;
        avg_energy := avg_energy; sleep_deficit := sleep_deficit;
        energy_deficit := energy_deficit; mood_slope := mood_slope;
        mood_downtrend := mood_downtrend; stress_term := stress_term;
        sleep_term := sleep_term; energy_term := energy_term;
        mood_term := mood_term; risk_raw := risk_raw;
        risk_score := risk_score |}.

(** The [if]/[elif]/[else] on [risk_score]. *)
Definition risk_label (cfg : ScoringConfig) (risk_score : Q) : Label :=
  if Qle_bool risk_score (green_max cfg) then Green
  else if Qle_bool risk_score (yellow_max cfg) then Yellow
  else Red.

(** A candidate reason: (name, contribution, message). *)
Definition candidate : Type := string * Q * string.

Definition contribution (c : candidate) : Q := c.1.2.
Definition message (c : candidate) : string := c.2.

(** The four gates, in the order of the source; each appends at most one
    candidate. *)
Definition reason_candidates (t : RiskTerms) : list candidate :=
  let candidates := [] in
  let candidates :=
    if Qle_bool 7 (avg_stress t) then
      candidates ++ [("stress", stress_term t,
                      "High average stress over the past week.")]
    else if Qle_bool 5.5 (avg_stress t) then
      candidates ++ [("stress", stress_term t,
                      "Moderate stress levels have been persistent.")]
    else candidates in
  let candidates :=
    if Qle_bool 2 (sleep_deficit t) then
      candidates ++ [("sleep", sleep_term t,
                      "Significant sleep deficit compared to the 8-hour target.")]
    else if Qle_bool 1 (sleep_deficit t) then
      candidates ++ [("sleep", sleep_term t,
                      "Not consistently meeting the 8-hour sleep target.")]
    else candidates in
  let candidates :=
    if Qle_bool 4 (energy_deficit t) then
      candidates ++ [("energy", energy_term t,
                      "Low energy levels on average.")]
    else if Qle_bool 2 (energy_deficit t) then
      candidates ++ [("energy", energy_term t,
                      "Energy levels have been slightly below ideal.")]
    else candidates in
  let candidates :=
    if Qle_bool 0.35 (mood_downtrend t) then
      candidates ++ [("mood", mood_term t,
                      "Mood has been trending downward across the week.")]
    else if Qle_bool 0.20 (mood_downtrend t) then
      candidates ++ [("mood", mood_term t,
                      "Slight downward mood trend detected.")]
    else candidates in
  candidates.

(** [candidates.sort(key=lambda x: x[1], reverse=True)]: Python's sort is
    stable, also under [reverse=True]; on a total order its result is the
    one of this stable insertion sort by descending contribution. *)
Fixpoint insert_desc (c : candidate) (l : list candidate) : list candidate :=
  match l with
  | [] => [c]
  | d :: l' =>
      if Qle_bool (contribution d) (contribution c)
      then c :: l
      else d :: insert_desc c l'
  end.

Fixpoint sort_desc (l : list candidate) : list candidate :=
  match l with
  | [] => []
  | c :: l' => insert_desc c (sort_desc l')
  end.

Definition fallback_reason : string :=
  "Overall indicators look stable this week.".

(** [candidates[:max(0, int(max_reasons))]] after the sort. *)
Definition top_candidates (candidates : list candidate) (max_reasons : Z)
  : list candidate :=
  take (Z.to_nat (Z.max 0 max_reasons)) (sort_desc candidates).

Definition select_reasons (candidates : list candidate) (max_reasons : Z)
  : list string :=
  let reasons := map message (top_candidates candidates max_reasons) in
  match reasons with
  | [] => [fallback_reason]
  | _ => reasons
  end.

Record Contributions : Type := {
  c_stress : Q;
  c_sleep : Q;
  c_energy : Q;
  c_mood : Q
}.

Record ComponentsDebug : Type := {
  d_avg_stress : Q;
  d_avg_sleep : Q;
  d_avg_energy : Q;
  d_sleep_deficit : Q;
  d_energy_deficit : Q;
  d_mood_slope : Q;
  d_mood_downtrend : Q;
  d_risk_raw : Q;
  d_contributions : Contributions
}.

Record BurnoutResult : Type := {
  burnout_risk_score : Q;
  burnout_risk_label : Label;
  burnout_reasons : list string;
  components_debug : option ComponentsDebug
}.

Definition calculate_burnout_risk (mood stress sleep energy : list Q)
    (cfg : ScoringConfig) (max_reasons : Z) (debug : bool)
  : result BurnoutResult :=
  t ← risk_terms mood stress sleep energy cfg;
  let label := risk_label cfg (risk_score t) in
  let candidates := reason_candidates t in
  let reasons := select_reasons candidates max_reasons in
  Ok {| burnout_risk_score := py_round (risk_score t) 2;
        burnout_risk_label := label;
        burnout_reasons := reasons;
        components_debug :=
          if debug then
            Some {| d_avg_stress := py_round (avg_stress t) 2;
                    d_avg_sleep := py_round (avg_sleep t) 2;
                    d_avg_energy := py_round (avg_energy t) 2;
                    d_sleep_deficit := py_round (sleep_deficit t) 2;
                    d_energy_deficit := py_round (energy_deficit t) 2;
                    d_mood_slope := py_round (mood_slope t) 4;
                    d_mood_downtrend := py_round (mood_downtrend t) 4;
                    d_risk_raw := py_round (risk_raw t) 4;
                    d_contributions :=
                      {| c_stress := py_round (stress_term t) 4;
                         c_sleep := py_round (sleep_term t) 4;
                         c_energy := py_round (energy_term t) 4;
                         c_mood := py_round (mood_term t) 4 |} |}
          else None |}.

(** ** Emotional battery *)

Definition calculate_emotional_battery (stress energy : list Q) : result Q :=
  s ← mean stress;
  e ← mean energy;
  let battery := 100 - (0.6 * s + 0.4 * (10 - e)) * 10 in
  Ok (py_round (clamp battery 0 100) 2).

(** ** The parts that call [math.sqrt] *)

Record VolatilityResult : Type := {
  mood_std : Q;
  mood_jump : Q;
  volatility_score : Q
}.

Record Metrics : Type := {
  volatility : VolatilityResult;
  stress_accumulation : AccumulationResult;
  burnout_risk : BurnoutResult;
  emotional_battery : Q
}.

Record Report : Type := {
  metrics : Metrics;
  disclaimer : string
}.

(** [data[key]] on a dict. *)
Definition py_getitem (data : gmap string (list Q)) (key : string)
  : result (list Q) :=
  match data !! key with
  | Some v => Ok v
  | None => Raise (KeyError key)
  end.

Section Sqrt.

(** [math.sqrt] on non-negative numbers. *)
Variable sqrtQ : Q -> Q.

Definition py_sqrt (x : Q) : result Q :=
  if Qle_bool 0 x then Ok (sqrtQ x) else Raise ValueError.

Definition stddev (xs : list Q) : result Q :=
  match xs with
  | [] => Ok 0
  | _ =>
      m ← mean xs;
      squares ← mapM (fun x => py_pow (x - m) 2) xs;
      var ← py_div (py_sum squares) (py_len xs);
      py_sqrt var
  end.

Definition calculate_volatility (mood : list Q) (cfg : ScoringConfig)
  : result VolatilityResult :=
  s ← stddev mood;
  j ← avg_abs_delta mood;
  s_norm ← normalize_0_100 s (mood_std_min cfg) (mood_std_max cfg);
  j_norm ← normalize_0_100 j (mood_jump_min cfg) (mood_jump_max cfg);
  let score := vol_w_std cfg * s_norm + vol_w_jump cfg * j_norm in
  Ok {| mood_std := py_round s 4;
        mood_jump := py_round j 4;
        volatility_score := py_round score 2 |}.

(** [generate_report] calls [calculate_burnout_risk] with its default
    [max_reasons=3] and [debug=False]. *)
Definition generate_report (data : gmap string (list Q)) (cfg : ScoringConfig)
  : result Report :=
  mood ← py_getitem data "mood";
  stress ← py_getitem data "stress";
  sleep ← py_getitem data "sleep";
  energy ← py_getitem data "energy";
  volatility ← calculate_volatility mood cfg;
  accumulation ← calculate_stress_accumulation stress cfg;
  burnout ← calculate_burnout_risk mood stress sleep energy cfg 3 false;
  battery ← calculate_emotional_battery stress energy;
  Ok {| metrics := {| volatility := volatility;
                      stress_accumulation := accumulation;
                      burnout_risk := burnout;
                      emotional_battery := battery |};
        disclaimer := "Wellness insights only. Not medical diagnosis." |}.

End Sqrt.

(** ** The endpoint [/analysis/calculate] of [main.py] *)

Module Main.

Record DailyLogSchema : Type := {
  day : Z;
  mood : Z;
  stress : Z;
  energy : Z;
  sleep : Q;
  reflection : string
}.

Record AnalysisRequest : Type := {
  email : string;
  logs : list DailyLogSchema
}.

(** A row of the table [mood_logs]. *)
Record MoodLog : Type := {
  user_email : string;
  log_day : Z;
  log_mood : Z;
  log_stress : Z;
  log_energy : Z;
  log_sleep : Q;
  note : string
}.

(** The database session: the e-mails of the registered users and the
    rows of [mood_logs]. *)
Record Database : Type := {
  users : gset string;
  mood_logs : list MoodLog
}.

Record AnalysisResponse : Type := {
  volatilityScore : Q;
  stressAccumulation : list Q;
  burnoutLikelihood : Q;
  riskLevel : string;
  emotionalBattery : Q;
  loveStressBalance : Q
}.

(** The loop [for l in logs: curr = (0.8 * curr) + l.stress;
    accumulation.append(round(curr, 2))]. *)
Fixpoint accumulation_loop (curr : Q) (logs : list DailyLogSchema) : list Q :=
  match logs with
  | [] => []
  | l :: logs' =>
      let curr' := 0.8 * curr + inject_Z (stress l) in
      py_round curr' 2 :: accumulation_loop curr' logs'
  end.

(** The values that a column of type [Integer] holds: the 32-bit signed
    integers of PostgreSQL, the database of [DATABASE_URL]. *)
Definition integer_column (v : Z) : bool :=
  (- 2 ^ 31 <=? v)%Z && (v <=? 2 ^ 31 - 1)%Z.

(** A row whose [day], [mood], [stress] and [energy] fit their columns. *)
Definition storable (row : MoodLog) : bool :=
  integer_column (log_day row) && integer_column (log_mood row)
  && integer_column (log_stress row) && integer_column (log_energy row).

(** [db.add(db_log)] for every row and then [db.commit()]: the rows are
    appended to [mood_logs].  The database refuses a value out of the
    range of its column: the commit raises [DataError] and writes
    nothing. *)
Definition commit (db : Database) (rows : list MoodLog) : result Database :=
  if forallb storable rows
  then Ok {| users := users db; mood_logs := mood_logs db ++ rows |}
  else Raise DataError.

Section Sqrt.

Variable sqrtQ : Q -> Q.

Definition calculate_metrics (req : AnalysisRequest) (db : Database)
  : result (Database * AnalysisResponse) :=
  let logs := logs req in
  if (length logs <? 2)%nat then
    Raise (HTTPException 400 "Insufficient data")
  else if negb (bool_decide (email req ∈ users db)) then
    Raise (HTTPException 401 "User not registered. Please register first.")
  else
    let db_logs :=
      map (fun l => {| user_email := email req; log_day := day l;
                       log_mood := mood l; log_stress := stress l;
                       log_energy := energy l; log_sleep := sleep l;
                       note := reflection l |}) logs in
    db ← commit db db_logs;
    (* 1. Volatility *)
    let moods := map (fun l => inject_Z (mood l)) logs in
    mean_mood ← py_div (py_sum moods) (py_len moods);
    squares ← mapM (fun x => py_pow (x - mean_mood) 2) moods;
    variance ← py_div (py_sum squares) (py_len moods);
    std_dev ← py_sqrt sqrtQ variance;
    let jumps := py_sum (abs_deltas moods) in
    avg_jump ← py_div jumps (py_len moods - 1);
    let volatility := Qmin 100 (std_dev * 15 + avg_jump * 10) in
    (* 2. Stress accumulation *)
    let accumulation := accumulation_loop 0 logs in
    (* 3. Burnout and battery *)
    avg_stress ←
      py_div (py_sum (map (fun l => inject_Z (stress l)) logs)) (py_len logs);
    avg_sleep ← py_div (py_sum (map sleep logs)) (py_len logs);
    avg_energy ←
      py_div (py_sum (map (fun l => inject_Z (energy l)) logs)) (py_len logs);
    sleep_deficit ← py_div (Qmax 0 (8 - avg_sleep)) 8;
    energy_depletion ← py_div (10 - avg_energy) 10;
    let burnout :=
      Qmin 100 (avg_stress * 8 + sleep_deficit * 20 + energy_depletion * 20) in
    last_log ← match last logs with
               | Some l => Ok l
               | None => Raise IndexError
               end;
    let battery :=
      Qmin 100 (avg_energy * 5 + avg_sleep * 5 + inject_Z (mood last_log) * 2) in
    let balance := Qmin 100 (Qmax 0 (100 - avg_stress * 7 + mean_mood * 3)) in
    let risk :=
      if Qgt_bool burnout 70 || (Qgt_bool volatility 80 && Qgt_bool burnout 40)
      then "HIGH_RISK"
      else if Qgt_bool burnout 40 || Qgt_bool volatility 50 then "CAUTION"
      else "STABLE" in
    Ok (db, {| volatilityScore := volatility;
               stressAccumulation := accumulation;
               burnoutLikelihood := burnout;
               riskLevel := risk;
               emotionalBattery := battery;
               loveStressBalance := balance |}).

End Sqrt.

(** The four series of a request, as the engine takes them. *)
Definition series_of (req : AnalysisRequest) : gmap string (list Q) :=
  {[ "mood" := map (fun l => inject_Z (mood l)) (logs req);
     "stress" := map (fun l => inject_Z (stress l)) (logs req);
     "sleep" := map sleep (logs req);
     "energy" := map (fun l => inject_Z (energy l)) (logs req) ]}.

End Main.

(** ** Registration and login of [main.py] *)

Module Auth.

(** A row of the table [users].  [created_at] is a time stamp. *)
Record User : Type := {
  id : Z;
  email : string;
  password_hash : string;
  created_at : Z
}.

(** [RegisterRequest] and [LoginRequest] have the same two fields. *)
Record RegisterRequest : Type := {
  register_email : string;
  register_password : string
}.

Record LoginRequest : Type := {
  login_email : string;
  login_password : string
}.

Record RegisterResponse : Type := {
  register_status : string;
  user_id : Z;
  user_email : string;
  user_created_at : string
}.

Record LoginResponse : Type := {
  login_status : string;
  token : string;
  login_user_email : string;
  login_user_name : string
}.

(** [db.query(User).filter(User.email == e).first()] *)
Definition first_by_email (e : string) (users : list User) : option User :=
  List.find (fun u => bool_decide (email u = e)) users.

(** [s.split("@")[0]]: the part of [s] before its first ["@"]. *)
Fixpoint before_at (s : string) : string :=
  match s with
  | EmptyString => EmptyString
  | String c s' =>
      if Ascii.eqb c "@"%char then EmptyString else String c (before_at s')
  end.

Section Hash.

(** [hashlib.sha256(password.encode("utf-8")).hexdigest()] and
    [datetime.isoformat()] are functions of Python's library. *)
Variable sha256_hexdigest : string -> string.
Variable isoformat : Z -> string.

Definition hash_password (password : string) : string :=
  sha256_hexdigest password.

(** [register]: [new_id] and [now] are the primary key and the time stamp
    that the database gives the new row. *)
Definition register (req : RegisterRequest) (users : list User)
    (new_id now : Z) : result (list User * RegisterResponse) :=
  match first_by_email (register_email req) users with
  | Some _ => Raise (HTTPException 409 "Email already registered")
  | None =>
      let user := {| id := new_id; email := register_email req;
                     password_hash := hash_password (register_password req);
                     created_at := now |} in
      Ok (users ++ [user],
          {| register_status := "success";
             user_id := id user;
             user_email := email user;
             user_created_at := isoformat (created_at user) |})
  end.

Definition login (req : LoginRequest) (users : list User)
  : result LoginResponse :=
  match first_by_email (login_email req) users with
  | None => Raise (HTTPException 401 "Invalid credentials")
  | Some user =>
      if negb (String.eqb (password_hash user)
                 (hash_password (login_password req)))
      then Raise (HTTPException 401 "Invalid credentials")
      else Ok {| login_status := "success";
                 token := "love-care-token-2024";
                 login_user_email := email user;
                 login_user_name := before_at (email user) |}
  end.

End Hash.

(** The database session that [calculate_metrics] sees: it only asks
    whether a row of [users] has the e-mail of the request. *)
Definition database (users : list User) (logs : list Main.MoodLog)
  : Main.Database :=
  {| Main.users := list_to_set (email <$> users); Main.mood_logs := logs |}.

End Auth.

(** ** The demo cases of [scoring.py] *)

Definition demo_case (mood stress sleep energy : list Q)
  : gmap string (list Q) :=
  {[ "mood" := mood; "stress" := stress; "sleep" := sleep;
     "energy" := energy ]}.

Definition DEMO_CASE_A : gmap string (list Q) :=
  demo_case [7; 7; 6.5; 7; 7.5; 7; 7] [2; 2; 3; 2; 2; 3; 2]
    [8; 8; 8; 7.5; 8; 8; 8] [8; 8; 7.5; 8; 8; 7.5; 8].

Definition DEMO_CASE_B : gmap string (list Q) :=
  demo_case [6; 6; 5.5; 6; 5; 5.5; 5] [5; 5; 6; 5; 6; 6; 5]
    [6.5; 6; 6; 6.5; 6; 6; 6] [6; 6; 5.5; 6; 5.5; 5; 5.5].

Definition DEMO_CASE_C : gmap string (list Q) :=
  demo_case [1; 5.5; 5; 4; 3.5; 3; 2.5] [8; 8.5; 9; 8.5; 9; 9; 8.5]
    [4.5; 1; 4; 1; 4; 4; 4.5] [4; 3.5; 3; 3; 1; 2; 2].

(** ** A sample request

    Two days of logs of a registered user, with the same values on both
    days. *)
Definition sample_log (d : Z) : Main.DailyLogSchema :=
  {| Main.day := d; Main.mood := 5; Main.stress := 5; Main.energy := 5;
     Main.sleep := 8; Main.reflection := "" |}.

Definition sample_request : Main.AnalysisRequest :=
  {| Main.email := "user@example.org";
     Main.logs := [sample_log 1; sample_log 2] |}.

Definition sample_database : Main.Database :=
  {| Main.users := {[ "user@example.org" ]}; Main.mood_logs := [] |}.

(** The rows that [calculate_metrics] adds to [mood_logs]. *)
Definition stored_rows (req : Main.AnalysisRequest) : list Main.MoodLog :=
  map (fun l => {| Main.user_email := Main.email req;
                   Main.log_day := Main.day l;
                   Main.log_mood := Main.mood l;
                   Main.log_stress := Main.stress l;
                   Main.log_energy := Main.energy l;
                   Main.log_sleep := Main.sleep l;
                   Main.note := Main.reflection l |}) (Main.logs req).

(** ** Two configurations off the defaults

    [ScoringConfig] takes any numbers: [UNIT_WEIGHTS_CFG] is
    [ScoringConfig(vol_w_std=1.0, vol_w_jump=1.0)] and [LOW_BOUND_CFG] is
    [ScoringConfig(mood_std_min=-3.5)]. *)
Definition UNIT_WEIGHTS_CFG : ScoringConfig := {|
  vol_w_std := 1;
  vol_w_jump := 1;
  mood_std_min := 0;
  mood_std_max := 3.5;
  mood_jump_min := 0;
  mood_jump_max := 4;
  stress_decay := 0.8;
  risk_w_stress := 0.45;
  risk_w_sleep_deficit := 0.20;
  risk_w_energy_deficit := 0.25;
  risk_w_mood_downtrend := 0.10;
  sleep_target := 8;
  risk_raw_min := 0;
  risk_raw_max := 10;
  green_max := 33;
  yellow_max := 66
|}.

Definition LOW_BOUND_CFG : ScoringConfig := {|
  vol_w_std := 0.6;
  vol_w_jump := 0.4;
  mood_std_min := -3.5;
  mood_std_max := 3.5;
  mood_jump_min := 0;
  mood_jump_max := 4;
  stress_decay := 0.8;
  risk_w_stress := 0.45;
  risk_w_sleep_deficit := 0.20;
  risk_w_energy_deficit := 0.25;
  risk_w_mood_downtrend := 0.10;
  sleep_target := 8;
  risk_raw_min := 0;
  risk_raw_max := 10;
  green_max := 33;
  yellow_max := 66
|}.

(** ** A computable square root

    A stand-in for [math.sqrt] with which the model runs on examples: the
    integer square root of the floor of its argument, which is
    [math.sqrt] on perfect squares.  It only instantiates the parameter
    [sqrtQ] in examples. *)
Definition floor_sqrt (x : Q) : Q := inject_Z (Z.sqrt (Qfloor x)).

(** ** Predicates of the statements *)

(** [square_fits d]: the square of [d] is a finite float, [d ** 2] does
    not overflow. *)
Definition square_fits (d : Q) : Prop := Qabs (d ^ 2) < float_overflow.

(** [bounded_series xs]: the entries of [xs] are at most [10^150] in
    absolute value, far inside the range where the square of a deviation
    from the mean is a finite float. *)
Definition series_bound : Q := inject_Z (10 ^ 150).

Definition bounded_series (xs : list Q) : Prop :=
  Forall (fun x => Qabs x <= series_bound) xs.

(** [rounds_to n x b]: [b] is [x] rounded to [n] decimals, that is a
    multiple [k / 10^n] nearest to [x], with an even [k] on a tie. *)
Definition rounds_to (n : nat) (x b : Q) : Prop :=
  exists k : Z,
    b == inject_Z k / inject_Z (10 ^ Z.of_nat n) /\
    Qabs (x * inject_Z (10 ^ Z.of_nat n) - inject_Z k) <= 1 # 2 /\
    (Qabs (x * inject_Z (10 ^ Z.of_nat n) - inject_Z k) == 1 # 2 ->
       Z.even k = true).

(** Straight-line expressions over the two means: constants, arithmetic,
    [clamp] and [round], and no conditional.  [eval] gives their value on
    a stress and an energy series. *)
Inductive expr : Type :=
  | Num (c : Q)
  | MeanStress
  | MeanEnergy
  | Plus (a b : expr)
  | Minus (a b : expr)
  | Times (a b : expr)
  | Clamp (x lo hi : expr)
  | Round (x : expr) (ndigits : nat).

Fixpoint eval (stress energy : list Q) (t : expr) : result Q :=
  match t with
  | Num c => Ok c
  | MeanStress => mean stress
  | MeanEnergy => mean energy
  | Plus a b =>
      x ← eval stress energy a; y ← eval stress energy b; Ok (x + y)
  | Minus a b =>
      x ← eval stress energy a; y ← eval stress energy b; Ok (x - y)
  | Times a b =>
      x ← eval stress energy a; y ← eval stress energy b; Ok (x * y)
  | Clamp x lo hi =>
      v ← eval stress energy x;
      l ← eval stress energy lo;
      h ← eval stress energy hi;
      Ok (clamp v l h)
  | Round x ndigits => v ← eval stress energy x; Ok (py_round v ndigits)
  end.

(** [round(clamp(100.0 - (0.6 * s + 0.4 * (10.0 - e)) * 10.0, 0.0, 100.0), 2)] *)
Definition battery_expr : expr :=
  Round
    (Clamp
       (Minus (Num 100)
          (Times
             (Plus (Times (Num 0.6) MeanStress)
                (Times (Num 0.4) (Minus (Num 10) MeanEnergy)))
             (Num 10)))
       (Num 0) (Num 100))
    2.

(** [ranks_before c d]: [c] may stand before [d] in a list sorted by
    descending contribution. *)
Definition ranks_before (c d : candidate) : Prop :=
  contribution d <= contribution c.

(** The candidates of contribution [q], in the order of the list. *)
Definition with_contribution (q : Q) (l : list candidate) : list candidate :=
  List.filter (fun c => Qeq_bool (contribution c) q) l.

(** What one factor contributes: the high message from [high_at] on, the
    moderate one from [moderate_at] up to [high_at], and nothing below. *)
Definition gate_spec (name : string) (value term high_at moderate_at : Q)
    (high_msg moderate_msg : string) (g : list candidate) : Prop :=
  (high_at <= value -> g = [(name, term, high_msg)]) /\
  (moderate_at <= value -> value < high_at -> g = [(name, term, moderate_msg)]) /\
  (value < moderate_at -> value < high_at -> g = []).

(** * Properties *)

(** ** The error monad and Python's arithmetic *)

Lemma bind_Ok {A B} (a : A) (f : A -> result B) : (Ok a ≫= f) = f a.
Proof. reflexivity. Qed.

Lemma returns_Ok {A} (a : A) : returns (Ok a).
Proof. by exists a. Qed.

Lemma py_div_nonzero (a b : Q) : ~ b == 0 -> py_div a b = Ok (a / b).
Proof.
  intros Hb. unfold py_div.
  destruct (Qeq_bool b 0) eqn:E; [|done].
  apply Qeq_bool_eq in E. contradiction.
Qed.

Lemma py_div_zero (a b : Q) : b == 0 -> py_div a b = Raise ZeroDivisionError.
Proof. intros Hb. unfold py_div. by rewrite (Qeq_eq_bool _ _ Hb). Qed.

Lemma py_len_nonneg {A} (xs : list A) : 0 <= py_len xs.
Proof.
  unfold py_len. change 0 with (inject_Z 0). rewrite <- Zle_Qle. lia.
Qed.

Lemma py_len_cons_pos {A} (x : A) (xs : list A) : 0 < py_len (x :: xs).
Proof.
  unfold py_len. change 0 with (inject_Z 0). rewrite <- Zlt_Qlt.
  simpl length. lia.
Qed.

Lemma py_len_cons {A} (x : A) (xs : list A) :
  py_len (x :: xs) == py_len xs + 1.
Proof.
  unfold py_len. simpl length. rewrite Nat2Z.inj_succ, <- Z.add_1_r.
  by rewrite inject_Z_plus.
Qed.

Lemma fold_left_Qplus (xs : list Q) (a : Q) :
  fold_left Qplus xs a == a + py_sum xs.
Proof.
  unfold py_sum. revert a.
  induction xs as [|x xs IH]; intros a; simpl.
  - lra.
  - rewrite (IH (a + x)), (IH (0 + x)). lra.
Qed.

Lemma py_sum_cons (x : Q) (xs : list Q) : py_sum (x :: xs) == x + py_sum xs.
Proof. unfold py_sum at 1. simpl. rewrite fold_left_Qplus. lra. Qed.

Lemma py_sum_nonneg (xs : list Q) : Forall (Qle 0) xs -> 0 <= py_sum xs.
Proof.
  induction 1 as [|x xs Hx _ IH]; [done|].
  rewrite py_sum_cons. lra.
Qed.

Lemma py_sum_zero (xs : list Q) : Forall (Qeq 0) xs -> py_sum xs == 0.
Proof.
  induction 1 as [|x xs Hx _ IH]; [done|].
  rewrite py_sum_cons. lra.
Qed.

Lemma py_sum_const (c : Q) (xs : list Q) :
  Forall (Qeq c) xs -> py_sum xs == c * py_len xs.
Proof.
  induction 1 as [|x xs Hx _ IH].
  - change (0 == c * 0). ring.
  - rewrite py_sum_cons, py_len_cons, IH, <- Hx. ring.
Qed.

(** ** The numeric primitives *)

Lemma mean_cons (x : Q) (xs : list Q) :
  mean (x :: xs) = Ok (py_sum (x :: xs) / py_len (x :: xs)).
Proof.
  unfold mean. apply py_div_nonzero.
  pose proof (py_len_cons_pos x xs). lra.
Qed.

Lemma mean_returns (xs : list Q) : returns (mean xs).
Proof.
  destruct xs as [|x xs]; [apply returns_Ok|].
  rewrite mean_cons. apply returns_Ok.
Qed.

Lemma Qdiv_nonneg (a b : Q) : 0 <= a -> 0 < b -> 0 <= a / b.
Proof.
  intros Ha Hb. unfold Qdiv. apply Qmult_le_0_compat; [done|].
  apply Qinv_le_0_compat. lra.
Qed.

Lemma Qsquare_nonneg (a : Q) : 0 <= a ^ 2.
Proof. simpl. nra. Qed.

Lemma py_pow_fits (d : Q) : square_fits d -> py_pow d 2 = Ok (d ^ 2).
Proof.
  unfold square_fits, py_pow. intros H. cbv zeta.
  destruct (Qle_bool float_overflow (Qabs (d ^ 2))) eqn:E; [|done].
  apply Qle_bool_iff in E. lra.
Qed.

Lemma py_pow_overflow (d : Q) :
  ~ square_fits d -> py_pow d 2 = Raise OverflowError.
Proof.
  unfold square_fits, py_pow. intros H. cbv zeta.
  destruct (Qle_bool float_overflow (Qabs (d ^ 2))) eqn:E; [done|].
  exfalso. apply H. apply Qnot_le_lt. rewrite <- Qle_bool_iff. congruence.
Qed.

Lemma square_fits_dec (d : Q) : {square_fits d} + {~ square_fits d}.
Proof.
  unfold square_fits.
  destruct (Qlt_le_dec (Qabs (d ^ 2)) float_overflow) as [H|H];
    [by left|right]. by apply Qle_not_lt.
Qed.

Lemma mapM_py_pow_fits (m : Q) (xs : list Q) :
  Forall (fun x => square_fits (x - m)) xs ->
  mapM (fun x => py_pow (x - m) 2) xs = Ok (map (fun x => (x - m) ^ 2) xs).
Proof.
  induction 1 as [|x xs Hx _ IH]; [done|].
  change (mapM (fun x => py_pow (x - m) 2) (x :: xs))
    with (y ← py_pow (x - m) 2;
          k ← mapM (fun x => py_pow (x - m) 2) xs; Ok (y :: k)).
  by rewrite py_pow_fits, bind_Ok, IH, bind_Ok.
Qed.

Lemma mapM_py_pow_overflow (m : Q) (xs : list Q) :
  Exists (fun x => ~ square_fits (x - m)) xs ->
  mapM (fun x => py_pow (x - m) 2) xs = Raise OverflowError.
Proof.
  induction xs as [|x xs IH]; intros Hex; [by apply Exists_nil in Hex|].
  change (mapM (fun x => py_pow (x - m) 2) (x :: xs))
    with (y ← py_pow (x - m) 2;
          k ← mapM (fun x => py_pow (x - m) 2) xs; Ok (y :: k)).
  destruct (square_fits_dec (x - m)) as [Hx|Hx].
  - rewrite py_pow_fits, bind_Ok by done.
    apply Exists_cons in Hex as [Hex|Hex]; [done|].
    by rewrite IH.
  - by rewrite py_pow_overflow.
Qed.

Lemma squares_fit_dec (m : Q) (xs : list Q) :
  Forall (fun x => square_fits (x - m)) xs \/
  Exists (fun x => ~ square_fits (x - m)) xs.
Proof.
  induction xs as [|x xs [IH|IH]].
  - left. constructor.
  - destruct (square_fits_dec (x - m)) as [Hx|Hx].
    + left. by constructor.
    + right. by left.
  - right. by right.
Qed.

Lemma stddev_cons (sqrtQ : Q -> Q) (x : Q) (xs : list Q) :
  let m := py_sum (x :: xs) / py_len (x :: xs) in
  let var := py_sum (map (fun y => (y - m) ^ 2) (x :: xs)) / py_len (x :: xs) in
  Forall (fun y => square_fits (y - m)) (x :: xs) ->
  0 <= var /\ stddev sqrtQ (x :: xs) = Ok (sqrtQ var).
Proof.
  intros m var Hfit.
  assert (Hvar : 0 <= var).
  { apply Qdiv_nonneg; [|apply py_len_cons_pos].
    apply py_sum_nonneg, List.Forall_forall. intros y Hy.
    apply in_map_iff in Hy as (z & <- & _). apply Qsquare_nonneg. }
  split; [done|].
  unfold stddev. rewrite mean_cons, bind_Ok. fold m.
  rewrite (mapM_py_pow_fits m _ Hfit), bind_Ok.
  rewrite py_div_nonzero, bind_Ok.
  - unfold py_sqrt. fold var. by rewrite (proj2 (Qle_bool_iff _ _) Hvar).
  - pose proof (py_len_cons_pos x xs). lra.
Qed.

Lemma stddev_overflow (sqrtQ : Q -> Q) (x : Q) (xs : list Q) :
  let m := py_sum (x :: xs) / py_len (x :: xs) in
  Exists (fun y => ~ square_fits (y - m)) (x :: xs) ->
  stddev sqrtQ (x :: xs) = Raise OverflowError.
Proof.
  intros m Hex. unfold stddev. rewrite mean_cons, bind_Ok. fold m.
  by rewrite (mapM_py_pow_overflow m _ Hex).
Qed.

(** [stddev] returns a value or raises [OverflowError], nothing else. *)
Lemma stddev_outcome (sqrtQ : Q -> Q) (xs : list Q) :
  returns (stddev sqrtQ xs) \/ stddev sqrtQ xs = Raise OverflowError.
Proof.
  destruct xs as [|x xs]; [left; apply returns_Ok|].
  destruct (squares_fit_dec (py_sum (x :: xs) / py_len (x :: xs)) (x :: xs))
    as [H|H].
  - left. destruct (stddev_cons sqrtQ x xs H) as [_ ->]. apply returns_Ok.
  - right. by apply stddev_overflow.
Qed.

Lemma py_len_ge_2 {A} (xs : list A) : (2 <= length xs)%nat -> 2 <= py_len xs.
Proof.
  intros H. unfold py_len. change 2 with (inject_Z 2).
  rewrite <- Zle_Qle. lia.
Qed.

Lemma avg_abs_delta_short (xs : list Q) :
  (length xs < 2)%nat -> avg_abs_delta xs = Ok 0.
Proof.
  intros H. unfold avg_abs_delta.
  by rewrite (proj2 (Nat.ltb_lt _ _) H).
Qed.

Lemma avg_abs_delta_long (xs : list Q) :
  (2 <= length xs)%nat ->
  avg_abs_delta xs = Ok (py_sum (abs_deltas xs) / (py_len xs - 1)).
Proof.
  intros H. unfold avg_abs_delta.
  rewrite (proj2 (Nat.ltb_ge _ _) H).
  apply py_div_nonzero. pose proof (py_len_ge_2 xs H). lra.
Qed.

Lemma avg_abs_delta_returns (xs : list Q) : returns (avg_abs_delta xs).
Proof.
  destruct (Nat.lt_ge_cases (length xs) 2) as [H|H].
  - rewrite avg_abs_delta_short by done. apply returns_Ok.
  - rewrite avg_abs_delta_long by done. apply returns_Ok.
Qed.

Lemma linear_trend_slope_short (xs : list Q) :
  (length xs < 2)%nat -> linear_trend_slope xs = Ok 0.
Proof.
  intros H. unfold linear_trend_slope.
  by rewrite (proj2 (Nat.ltb_lt _ _) H).
Qed.

(** With two points or more the slope is [num / den] of the loop, or [0]
    when [den] is [0]. *)
Lemma linear_trend_slope_long (xs : list Q) :
  (2 <= length xs)%nat ->
  exists x_mean,
    mean xs = Ok x_mean /\
    let sums := slope_sums ((py_len xs - 1) / 2) x_mean 0 xs (0, 0) in
    linear_trend_slope xs =
      Ok (if Qeq_bool sums.2 0 then 0 else sums.1 / sums.2).
Proof.
  intros H. destruct (mean_returns xs) as [x_mean Hm].
  exists x_mean. split; [done|]. intros sums.
  unfold linear_trend_slope.
  rewrite (proj2 (Nat.ltb_ge _ _) H).
  rewrite (py_div_nonzero _ 2) by done.
  rewrite bind_Ok, Hm, bind_Ok. fold sums.
  destruct sums as [num den]. simpl.
  destruct (Qeq_bool den 0) eqn:E; simpl; [done|].
  apply py_div_nonzero. by apply Qeq_bool_neq.
Qed.

Lemma linear_trend_slope_returns (xs : list Q) :
  returns (linear_trend_slope xs).
Proof.
  destruct (Nat.lt_ge_cases (length xs) 2) as [H|H].
  - rewrite linear_trend_slope_short by done. apply returns_Ok.
  - destruct (linear_trend_slope_long xs H) as (m & _ & ->). apply returns_Ok.
Qed.

Lemma slope_sums_den_mono (t_mean x_mean : Q) (t : Z) (xs : list Q)
    (acc : Q * Q) :
  acc.2 <= (slope_sums t_mean x_mean t xs acc).2.
Proof.
  revert t acc. induction xs as [|x xs IH]; intros t acc; simpl; [lra|].
  eapply Qle_trans; [|apply IH]. simpl.
  pose proof (Qsquare_nonneg (inject_Z t - t_mean)) as Hsq.
  simpl in Hsq. lra.
Qed.

Lemma slope_sums_den_pos (x_mean : Q) (xs : list Q) :
  (2 <= length xs)%nat ->
  0 < (slope_sums ((py_len xs - 1) / 2) x_mean 0 xs (0, 0)).2.
Proof.
  intros H. pose proof (py_len_ge_2 xs H) as Hlen.
  destruct xs as [|x xs]; [simpl in H; lia|].
  set (t_mean := (py_len (x :: xs) - 1) / 2).
  assert (1 # 2 <= t_mean) as Ht.
  { unfold t_mean. apply Qle_shift_div_l; lra. }
  simpl. eapply Qlt_le_trans; [|apply slope_sums_den_mono]. simpl.
  change (inject_Z 0) with 0. nra.
Qed.

Lemma py_sum_bounds (a b : Q) (xs : list Q) :
  Forall (fun x => a <= x /\ x <= b) xs ->
  a * py_len xs <= py_sum xs /\ py_sum xs <= b * py_len xs.
Proof.
  induction 1 as [|x xs [Ha Hb] _ [IHa IHb]].
  - change (a * 0 <= 0 /\ 0 <= b * 0). lra.
  - rewrite py_sum_cons, py_len_cons.
    assert (a * (py_len xs + 1) == a * py_len xs + a) as -> by ring.
    assert (b * (py_len xs + 1) == b * py_len xs + b) as -> by ring.
    lra.
Qed.

Lemma mean_bounds (a b m : Q) (xs : list Q) :
  a <= 0 -> 0 <= b ->
  Forall (fun x => a <= x /\ x <= b) xs ->
  mean xs = Ok m ->
  a <= m /\ m <= b.
Proof.
  intros Ha0 Hb0 Hxs Hm. destruct xs as [|x xs].
  - injection Hm as <-. done.
  - rewrite mean_cons in Hm. injection Hm as <-.
    pose proof (py_len_cons_pos x xs) as Hlen.
    destruct (py_sum_bounds a b (x :: xs) Hxs) as [Ha Hb].
    split; [by apply Qle_shift_div_l|by apply Qle_shift_div_r].
Qed.

Lemma series_bound_square : 4 * series_bound * series_bound < float_overflow.
Proof. vm_compute. reflexivity. Qed.

(** On a bounded series no squared deviation overflows. *)
Lemma bounded_series_fits (m : Q) (xs : list Q) :
  bounded_series xs ->
  mean xs = Ok m ->
  Forall (fun x => square_fits (x - m)) xs.
Proof.
  intros Hxs Hm.
  pose proof series_bound_square as Hsq.
  assert (0 <= series_bound) as HB by (vm_compute; discriminate).
  unfold bounded_series in Hxs.
  set (B := series_bound) in *. clearbody B.
  assert (Forall (fun x => - B <= x /\ x <= B) xs) as Hxs'.
  { eapply Forall_impl; [exact Hxs|]. intros x Hx. simpl in Hx.
    by apply Qabs_Qle_condition. }
  destruct (mean_bounds (- B) B m xs) as [Hm3 Hm4]; [lra|lra|done|done|].
  eapply Forall_impl; [exact Hxs'|]. intros x [Hx1 Hx2]. simpl.
  unfold square_fits.
  pose proof (Qsquare_nonneg (x - m)) as Hnn.
  rewrite Qabs_pos by done.
  eapply Qle_lt_trans; [|exact Hsq].
  simpl. nra.
Qed.

(** [stddev] returns on a bounded series. *)
Lemma stddev_bounded (sqrtQ : Q -> Q) (xs : list Q) :
  bounded_series xs ->
  exists m var,
    mean xs = Ok m /\
    0 <= var /\
    (xs <> [] -> var == py_sum (map (fun x => (x - m) ^ 2) xs) / py_len xs) /\
    stddev sqrtQ xs = Ok (match xs with [] => 0 | _ => sqrtQ var end).
Proof.
  intros Hxs. destruct xs as [|x xs].
  - exists 0, 0. split; [done|]. split; [lra|]. split; done.
  - pose proof (bounded_series_fits _ _ Hxs (mean_cons x xs)) as Hfit.
    destruct (stddev_cons sqrtQ x xs Hfit) as [Hvar Hs].
    eexists _, _. split; [apply mean_cons|].
    split; [exact Hvar|]. split; [reflexivity|exact Hs].
Qed.

(** ** [clamp] and [normalize_0_100] *)

Ltac qminmax_case E :=
  let H := fresh in
  destruct E as [[? H]|[? H]]; rewrite !H in *; clear H.

Ltac qminmax :=
  repeat match goal with
  | |- context [Qmax ?a ?b] => qminmax_case (Q.max_spec a b)
  | |- context [Qmin ?a ?b] => qminmax_case (Q.min_spec a b)
  | _ : context [Qmax ?a ?b] |- _ => qminmax_case (Q.max_spec a b)
  | _ : context [Qmin ?a ?b] |- _ => qminmax_case (Q.min_spec a b)
  end; try lra.

Lemma clamp_bounds (x lo hi : Q) :
  lo <= hi -> lo <= clamp x lo hi /\ clamp x lo hi <= hi.
Proof. intros H. unfold clamp. split; qminmax. Qed.

Lemma clamp_mono (x y lo hi : Q) :
  x <= y -> clamp x lo hi <= clamp y lo hi.
Proof. intros H. unfold clamp. qminmax. Qed.

Lemma clamp_below (x lo hi : Q) : x <= lo -> lo <= hi -> clamp x lo hi == lo.
Proof. intros H1 H2. unfold clamp. qminmax. Qed.

Lemma clamp_above (x lo hi : Q) : hi <= x -> lo <= hi -> clamp x lo hi == hi.
Proof. intros H1 H2. unfold clamp. qminmax. Qed.

Lemma clamp_inside (x lo hi : Q) : lo <= x -> x <= hi -> clamp x lo hi == x.
Proof. intros H1 H2. unfold clamp. qminmax. Qed.

Lemma normalize_0_100_degenerate (x lo hi : Q) :
  hi <= lo -> normalize_0_100 x lo hi = Ok 0.
Proof.
  intros H. unfold normalize_0_100.
  by rewrite (proj2 (Qle_bool_iff _ _) H).
Qed.

Lemma normalize_0_100_proper (x lo hi : Q) :
  lo < hi ->
  normalize_0_100 x lo hi = Ok (clamp ((x - lo) / (hi - lo) * 100) 0 100).
Proof.
  intros H. unfold normalize_0_100.
  destruct (Qle_bool hi lo) eqn:E.
  - apply Qle_bool_iff in E. lra.
  - rewrite py_div_nonzero by lra. done.
Qed.

Lemma normalize_0_100_returns (x lo hi : Q) : returns (normalize_0_100 x lo hi).
Proof.
  destruct (Qlt_le_dec lo hi) as [H|H].
  - rewrite normalize_0_100_proper by done. apply returns_Ok.
  - rewrite normalize_0_100_degenerate by done. apply returns_Ok.
Qed.

Lemma normalize_0_100_range (x lo hi v : Q) :
  normalize_0_100 x lo hi = Ok v -> 0 <= v /\ v <= 100.
Proof.
  destruct (Qlt_le_dec lo hi) as [H|H].
  - rewrite normalize_0_100_proper by done. intros [= <-].
    apply clamp_bounds. lra.
  - rewrite normalize_0_100_degenerate by done. intros [= <-]. lra.
Qed.

Lemma Qdiv_le_mono (a b d : Q) : 0 < d -> a <= b -> a / d <= b / d.
Proof.
  intros Hd H. unfold Qdiv.
  apply Qmult_le_compat_r; [done|].
  apply Qinv_le_0_compat. lra.
Qed.

Lemma normalize_0_100_mono (x y lo hi : Q) :
  x <= y ->
  exists v w,
    normalize_0_100 x lo hi = Ok v /\ normalize_0_100 y lo hi = Ok w /\ v <= w.
Proof.
  intros Hxy. destruct (Qlt_le_dec lo hi) as [H|H].
  - eexists _, _. rewrite !normalize_0_100_proper by done.
    split; [done|]. split; [done|].
    apply clamp_mono.
    apply Qmult_le_compat_r; [|lra].
    apply Qdiv_le_mono; lra.
  - exists 0, 0. rewrite !normalize_0_100_degenerate by done.
    repeat split; lra.
Qed.

Lemma normalize_0_100_low (x lo hi : Q) :
  x <= lo -> exists v, normalize_0_100 x lo hi = Ok v /\ v == 0.
Proof.
  intros Hx. destruct (Qlt_le_dec lo hi) as [H|H].
  - eexists. rewrite normalize_0_100_proper by done. split; [done|].
    apply clamp_below; [|lra].
    assert ((x - lo) / (hi - lo) <= 0 / (hi - lo)) as Hd
      by (apply Qdiv_le_mono; lra).
    assert (0 / (hi - lo) == 0) as H0 by (field; lra).
    lra.
  - exists 0. by rewrite normalize_0_100_degenerate.
Qed.

Lemma normalize_0_100_high (x lo hi : Q) :
  lo < hi -> hi <= x -> exists v, normalize_0_100 x lo hi = Ok v /\ v == 100.
Proof.
  intros H Hx. eexists. rewrite normalize_0_100_proper by done.
  split; [done|].
  apply clamp_above; [|lra].
  assert ((hi - lo) / (hi - lo) <= (x - lo) / (hi - lo)) as Hd
    by (apply Qdiv_le_mono; lra).
  assert ((hi - lo) / (hi - lo) == 1) as H1 by (field; lra).
  lra.
Qed.

(** C5.  [normalize_0_100(x, lo, hi)] is monotonic non-decreasing in [x]
    for fixed [lo] and [hi]; on a proper range [lo < hi] it maps [lo] to
    0 and [hi] to 100; it returns 0 for every [x <= lo] and 100 for every
    [x >= hi] of a proper range; and it returns 0 for every [x] whenever
    [hi <= lo]. *)
Theorem normalize_0_100_spec (lo hi : Q) :
  (forall x y, x <= y ->
     exists v w, normalize_0_100 x lo hi = Ok v /\
                 normalize_0_100 y lo hi = Ok w /\ v <= w) /\
  (lo < hi ->
     (exists v, normalize_0_100 lo lo hi = Ok v /\ v == 0) /\
     (exists v, normalize_0_100 hi lo hi = Ok v /\ v == 100)) /\
  (forall x, x <= lo -> exists v, normalize_0_100 x lo hi = Ok v /\ v == 0) /\
  (forall x, lo < hi -> hi <= x ->
     exists v, normalize_0_100 x lo hi = Ok v /\ v == 100) /\
  (forall x, hi <= lo -> normalize_0_100 x lo hi = Ok 0).
Proof.
  split; [intros x y; apply normalize_0_100_mono|].
  split.
  { intros H. split.
    - apply normalize_0_100_low. lra.
    - apply normalize_0_100_high; lra. }
  split; [intros x; apply normalize_0_100_low|].
  split; [intros x; apply normalize_0_100_high|].
  intros x. apply normalize_0_100_degenerate.
Qed.

Lemma normalize_0_100_spec_witness :
  (exists v w, normalize_0_100 2.5 0 10 = Ok v /\
               normalize_0_100 7 0 10 = Ok w /\ v <= w) /\
  (exists v, normalize_0_100 0 0 10 = Ok v /\ v == 0) /\
  (exists v, normalize_0_100 10 0 10 = Ok v /\ v == 100) /\
  (exists v, normalize_0_100 (-3) 0 10 = Ok v /\ v == 0) /\
  (exists v, normalize_0_100 12 0 10 = Ok v /\ v == 100) /\
  normalize_0_100 5 4 4 = Ok 0.
Proof.
  destruct (normalize_0_100_spec 0 10) as (Hmono & Hends & Hlow & Hhigh & _).
  destruct (normalize_0_100_spec 4 4) as (_ & _ & _ & _ & Hdeg).
  split; [apply Hmono; lra|].
  split; [apply Hends; lra|].
  split; [apply Hends; lra|].
  split; [apply Hlow; lra|].
  split; [apply Hhigh; lra|].
  apply Hdeg. lra.
Defined.

(** C8, as the code has it.  No division by zero is reachable: [mean],
    [avg_abs_delta], [linear_trend_slope] and [normalize_0_100] return a
    value on every input, and [stddev] returns a value or raises
    [OverflowError], nothing else; it returns on every series of entries
    up to [10^150] in absolute value.  [mean] and [stddev] return 0 on
    the empty sequence, [avg_abs_delta] and [linear_trend_slope] return 0
    on fewer than two points, the denominator of the slope is 0 only on
    fewer than two points, where the slope is 0, and [normalize_0_100]
    returns 0 when [hi <= lo]. *)
Theorem numeric_primitives_total (sqrtQ : Q -> Q) :
  (forall xs, returns (mean xs)) /\
  mean [] = Ok 0 /\
  (forall xs,
     returns (stddev sqrtQ xs) \/ stddev sqrtQ xs = Raise OverflowError) /\
  (forall xs, bounded_series xs -> returns (stddev sqrtQ xs)) /\
  stddev sqrtQ [] = Ok 0 /\
  (forall xs, returns (avg_abs_delta xs)) /\
  (forall xs, (length xs < 2)%nat -> avg_abs_delta xs = Ok 0) /\
  (forall xs, returns (linear_trend_slope xs)) /\
  (forall xs, (length xs < 2)%nat -> linear_trend_slope xs = Ok 0) /\
  (forall xs t_mean x_mean,
     py_div (py_len xs - 1) 2 = Ok t_mean ->
     mean xs = Ok x_mean ->
     (slope_sums t_mean x_mean 0 xs (0, 0)).2 == 0 ->
     (length xs < 2)%nat /\ linear_trend_slope xs = Ok 0) /\
  (forall x lo hi, returns (normalize_0_100 x lo hi)) /\
  (forall x lo hi, hi <= lo -> normalize_0_100 x lo hi = Ok 0).
Proof.
  split; [apply mean_returns|].
  split; [done|].
  split; [apply stddev_outcome|].
  split.
  { intros xs Hxs.
    destruct (stddev_bounded sqrtQ xs Hxs) as (m & var & _ & _ & _ & ->).
    apply returns_Ok. }
  split; [done|].
  split; [apply avg_abs_delta_returns|].
  split; [apply avg_abs_delta_short|].
  split; [apply linear_trend_slope_returns|].
  split; [apply linear_trend_slope_short|].
  split; [|split; [apply normalize_0_100_returns
                  |apply normalize_0_100_degenerate]].
  intros xs t_mean x_mean Ht Hm Hden.
  assert (length xs < 2)%nat as Hshort.
  { destruct (Nat.lt_ge_cases (length xs) 2) as [H|H]; [done|].
    pose proof (slope_sums_den_pos x_mean xs H) as Hpos.
    rewrite py_div_nonzero in Ht by lra. injection Ht as <-. lra. }
  split; [done|]. by apply linear_trend_slope_short.
Qed.

Lemma numeric_primitives_total_witness :
  returns (stddev floor_sqrt [7; 6; 8]) /\
  avg_abs_delta [5] = Ok 0 /\
  linear_trend_slope [5] = Ok 0 /\
  ((length (@nil Q) < 2)%nat /\ linear_trend_slope [] = Ok 0) /\
  normalize_0_100 7 3 3 = Ok 0.
Proof.
  destruct (numeric_primitives_total floor_sqrt)
    as (_ & _ & _ & Hstd & _ & _ & Hdelta & _ & Hslope & Hden & _ & Hnorm).
  split.
  { apply Hstd. repeat (apply Forall_cons; split; [vm_compute; discriminate|]).
    constructor. }
  split; [apply Hdelta; simpl; lia|].
  split; [apply Hslope; simpl; lia|].
  split; [apply (Hden [] (-1 # 2) 0); reflexivity|].
  apply Hnorm. lra.
Defined.

(** C8, as the spec has it, fails: [stddev] is not total.  On the series
    [[1e200, 0.0]] the deviation from the mean is [5e199], and its
    square is beyond the largest float: [(x - m) ** 2] raises
    [OverflowError]. *)
Lemma stddev_overflow_counterexample :
  stddev floor_sqrt [inject_Z (10 ^ 200); 0] = Raise OverflowError /\
  ~ returns (stddev floor_sqrt [inject_Z (10 ^ 200); 0]).
Proof.
  assert (stddev floor_sqrt [inject_Z (10 ^ 200); 0] = Raise OverflowError)
    as H by (vm_compute; reflexivity).
  split; [exact H|]. rewrite H. by intros [a Ha].
Qed.

(** ** [round] *)

Lemma scale_pos (n : nat) : 0 < inject_Z (10 ^ Z.of_nat n).
Proof.
  change 0 with (inject_Z 0). rewrite <- Zlt_Qlt.
  apply Z.pow_pos_nonneg; lia.
Qed.

(** The last digit kept by [round] is the floor of the scaled value or its
    successor, the successor only when the scaled value is no integer. *)
Lemma py_round_digit (x : Q) (n : nat) :
  let scale := inject_Z (10 ^ Z.of_nat n) in
  exists k : Z,
    py_round x n = inject_Z k / scale /\
    (Qfloor (x * scale) <= k <= Qfloor (x * scale) + 1)%Z /\
    (k = (Qfloor (x * scale) + 1)%Z -> inject_Z (Qfloor (x * scale)) < x * scale).
Proof.
  intros scale. unfold py_round. fold scale.
  set (y := x * scale). set (lo := Qfloor y).
  destruct (y - inject_Z lo ?= 1 # 2) eqn:E.
  - apply Qeq_alt in E.
    destruct (Z.even lo).
    + exists lo. split; [done|]. split; lia.
    + exists (lo + 1)%Z. split; [done|]. split; [lia|]. intros _. lra.
  - exists lo. split; [done|]. split; lia.
  - apply Qgt_alt in E.
    exists (lo + 1)%Z. split; [done|]. split; [lia|]. intros _. lra.
Qed.

Lemma py_round_bounds (a b : Z) (x : Q) (n : nat) :
  inject_Z a <= x -> x <= inject_Z b ->
  inject_Z a <= py_round x n /\ py_round x n <= inject_Z b.
Proof.
  intros Ha Hb.
  pose proof (scale_pos n) as Hs.
  destruct (py_round_digit x n) as (k & -> & [Hk1 Hk2] & Hk3).
  set (s := (10 ^ Z.of_nat n)%Z) in *.
  set (y := x * inject_Z s) in *.
  assert (inject_Z (a * s) <= y) as Hay.
  { rewrite inject_Z_mult. unfold y. apply Qmult_le_compat_r; lra. }
  assert (y <= inject_Z (b * s)) as Hyb.
  { rewrite inject_Z_mult. unfold y. apply Qmult_le_compat_r; lra. }
  assert (a * s <= k)%Z as Hlow.
  { apply Qfloor_resp_le in Hay. rewrite Qfloor_Z in Hay. lia. }
  assert (k <= b * s)%Z as Hhigh.
  { destruct (Z.eq_dec k (Qfloor y + 1)) as [Hk|Hk].
    - specialize (Hk3 Hk).
      assert (inject_Z (Qfloor y) < inject_Z (b * s)) as Hlt by lra.
      rewrite <- Zlt_Qlt in Hlt. lia.
    - pose proof (Qfloor_le y) as Hfl.
      assert (inject_Z (Qfloor y) <= inject_Z (b * s)) as Hle by lra.
      rewrite <- Zle_Qle in Hle. lia. }
  assert (inject_Z a == inject_Z (a * s) / inject_Z s) as ->.
  { rewrite inject_Z_mult. field. lra. }
  assert (inject_Z b == inject_Z (b * s) / inject_Z s) as ->.
  { rewrite inject_Z_mult. field. lra. }
  split; apply Qdiv_le_mono; try done; by rewrite <- Zle_Qle.
Qed.

Lemma py_round_zero (x : Q) (n : nat) : x == 0 -> py_round x n == 0.
Proof.
  intros Hx.
  destruct (py_round_bounds 0 0 x n) as [H1 H2].
  - rewrite Hx. done.
  - rewrite Hx. done.
  - change (inject_Z 0) with 0 in *. lra.
Qed.

Lemma py_round_percent (x : Q) (n : nat) :
  0 <= x -> x <= 100 -> 0 <= py_round x n /\ py_round x n <= 100.
Proof. intros H0 H100. by apply (py_round_bounds 0 100). Qed.

(** ** Emotional battery *)

(** [round] gives a nearest multiple of [10^-n], the even one on a tie. *)
Lemma py_round_nearest (x : Q) (n : nat) : rounds_to n x (py_round x n).
Proof.
  unfold rounds_to, py_round.
  set (scale := inject_Z (10 ^ Z.of_nat n)).
  set (y := x * scale). set (lo := Qfloor y).
  pose proof (Qfloor_le y) as Hlo. pose proof (Qlt_floor y) as Hhi.
  fold lo in Hlo, Hhi.
  assert (inject_Z (lo + 1) == inject_Z lo + 1) as Hsucc
    by (by rewrite inject_Z_plus).
  rewrite Hsucc in Hhi.
  destruct (Qcompare_spec (y - inject_Z lo) (1 # 2)) as [E|E|E].
  - assert (Qabs (y - inject_Z lo) == 1 # 2) as Hl
      by (rewrite Qabs_pos; lra).
    assert (Qabs (y - inject_Z (lo + 1)) == 1 # 2) as Hh
      by (rewrite Hsucc, Qabs_neg; lra).
    destruct (Z.even lo) eqn:Ev.
    + exists lo. split; [reflexivity|]. split; [lra|done].
    + exists (lo + 1)%Z. split; [reflexivity|]. split; [lra|]. intros _.
      by rewrite Z.add_1_r, Z.even_succ, <- Z.negb_even, Ev.
  - exists lo. split; [reflexivity|].
    assert (Qabs (y - inject_Z lo) == y - inject_Z lo) as Hl
      by (rewrite Qabs_pos; lra).
    split; lra.
  - exists (lo + 1)%Z. split; [reflexivity|].
    assert (Qabs (y - inject_Z (lo + 1)) == inject_Z lo + 1 - y) as Hh
      by (rewrite Hsucc, Qabs_neg; lra).
    split; lra.
Qed.

(** [mean] is the sum of the entries over their number, and 0 on the
    empty list. *)
Lemma mean_spec (xs : list Q) :
  exists m,
    mean xs = Ok m /\
    (xs = [] -> m = 0) /\
    (xs <> [] ->
       m = fold_left Qplus xs 0 / inject_Z (Z.of_nat (length xs))).
Proof.
  destruct xs as [|x xs].
  - exists 0. done.
  - eexists. split; [apply mean_cons|]. done.
Qed.

(** C7.  For every stress and energy series, [calculate_emotional_battery]
    returns [100 - (0.6 * s + 0.4 * (10 - e)) * 10], where [s] and [e] are
    the means of the stress and of the energy series (the sum of the
    entries over their number, 0 for an empty series), clamped to
    [0, 100], that is [max(0, min(100, .))], and rounded to 2 decimals,
    that is to a nearest multiple of 0.01, the even one on a tie; the
    value lies in [0, 100].  The body is a straight-line expression over
    the two means: it is the value of [battery_expr], a term without a
    conditional. *)
Theorem calculate_emotional_battery_formula (stress energy : list Q) :
  exists s e b,
    mean stress = Ok s /\
    (stress = [] -> s = 0) /\
    (stress <> [] ->
       s = fold_left Qplus stress 0 / inject_Z (Z.of_nat (length stress))) /\
    mean energy = Ok e /\
    (energy = [] -> e = 0) /\
    (energy <> [] ->
       e = fold_left Qplus energy 0 / inject_Z (Z.of_nat (length energy))) /\
    calculate_emotional_battery stress energy = Ok b /\
    b = py_round (clamp (100 - (0.6 * s + 0.4 * (10 - e)) * 10) 0 100) 2 /\
    rounds_to 2
      (Qmax 0 (Qmin 100 (100 - (0.6 * s + 0.4 * (10 - e)) * 10))) b /\
    0 <= b /\ b <= 100 /\
    calculate_emotional_battery stress energy
      = eval stress energy battery_expr.
Proof.
  destruct (mean_spec stress) as (s & Hs & Hs0 & Hs1).
  destruct (mean_spec energy) as (e & He & He0 & He1).
  exists s, e. eexists.
  split; [done|]. split; [done|]. split; [done|].
  split; [done|]. split; [done|]. split; [done|].
  unfold calculate_emotional_battery.
  rewrite Hs, bind_Ok, He, bind_Ok.
  split; [done|]. split; [done|].
  split; [apply py_round_nearest|].
  split; [|split].
  - apply py_round_percent; apply clamp_bounds; lra.
  - apply py_round_percent; apply clamp_bounds; lra.
  - simpl. by rewrite Hs, He.
Qed.

Lemma calculate_emotional_battery_formula_witness :
  exists s b,
    s = fold_left Qplus [5; 6] 0 / inject_Z (Z.of_nat (length [5; 6])) /\
    calculate_emotional_battery [5; 6] [8; 7] = Ok b /\
    0 <= b /\ b <= 100.
Proof.
  destruct (calculate_emotional_battery_formula [5; 6] [8; 7])
    as (s & e & b & _ & _ & Hs & _ & _ & _ & Hb & _ & _ & H0 & H100 & _).
  exists s, b. split; [by apply Hs|]. done.
Defined.

(** ** Burnout risk: the weighted terms and the label *)

Lemma risk_terms_returns (mood stress sleep energy : list Q)
    (cfg : ScoringConfig) :
  returns (risk_terms mood stress sleep energy cfg).
Proof.
  destruct (mean_returns stress) as [a1 H1].
  destruct (mean_returns sleep) as [a2 H2].
  destruct (mean_returns energy) as [a3 H3].
  destruct (linear_trend_slope_returns mood) as [k Hk].
  unfold risk_terms.
  rewrite H1, bind_Ok, H2, bind_Ok, H3, bind_Ok. cbv zeta.
  rewrite Hk, bind_Ok.
  rewrite (py_div_nonzero _ 2), bind_Ok by done.
  destruct (normalize_0_100_returns
              (risk_w_stress cfg * a1
               + risk_w_sleep_deficit cfg * (Qmax 0 (sleep_target cfg - a2) * 2)
               + risk_w_energy_deficit cfg * (Qmax 0 (10 - a3) / 2)
               + risk_w_mood_downtrend cfg * (Qmax 0 (- k) * 5))
              (risk_raw_min cfg) (risk_raw_max cfg)) as [v ->].
  rewrite bind_Ok. apply returns_Ok.
Qed.

(** What [risk_terms] returns, field by field. *)
Lemma risk_terms_inv (mood stress sleep energy : list Q) (cfg : ScoringConfig)
    (t : RiskTerms) :
  risk_terms mood stress sleep energy cfg = Ok t ->
  mean stress = Ok (avg_stress t) /\
  mean sleep = Ok (avg_sleep t) /\
  mean energy = Ok (avg_energy t) /\
  linear_trend_slope mood = Ok (mood_slope t) /\
  sleep_deficit t = Qmax 0 (sleep_target cfg - avg_sleep t) /\
  energy_deficit t = Qmax 0 (10 - avg_energy t) /\
  mood_downtrend t = Qmax 0 (- mood_slope t) /\
  stress_term t = risk_w_stress cfg * avg_stress t /\
  sleep_term t = risk_w_sleep_deficit cfg * (sleep_deficit t * 2) /\
  energy_term t = risk_w_energy_deficit cfg * (energy_deficit t / 2) /\
  mood_term t = risk_w_mood_downtrend cfg * (mood_downtrend t * 5) /\
  risk_raw t = stress_term t + sleep_term t + energy_term t + mood_term t /\
  normalize_0_100 (risk_raw t) (risk_raw_min cfg) (risk_raw_max cfg)
    = Ok (risk_score t).
Proof.
  unfold risk_terms.
  destruct (mean stress) as [a1|]; [|done].
  destruct (mean sleep) as [a2|]; [|done].
  destruct (mean energy) as [a3|]; [|done].
  rewrite !bind_Ok. cbv zeta.
  destruct (linear_trend_slope mood) as [k|]; [|done].
  rewrite bind_Ok, (py_div_nonzero _ 2), bind_Ok by done.
  match goal with
  | |- context [normalize_0_100 ?r ?a ?b] =>
      destruct (normalize_0_100 r a b) as [v|] eqn:Hv; [|done]
  end.
  rewrite bind_Ok. intros [= <-]. simpl.
  repeat split; done.
Qed.

Lemma calculate_burnout_risk_returns (mood stress sleep energy : list Q)
    (cfg : ScoringConfig) (max_reasons : Z) (debug : bool) :
  exists t r,
    risk_terms mood stress sleep energy cfg = Ok t /\
    calculate_burnout_risk mood stress sleep energy cfg max_reasons debug
      = Ok r /\
    burnout_risk_score r = py_round (risk_score t) 2 /\
    burnout_risk_label r = risk_label cfg (risk_score t) /\
    burnout_reasons r = select_reasons (reason_candidates t) max_reasons.
Proof.
  destruct (risk_terms_returns mood stress sleep energy cfg) as [t Ht].
  exists t. eexists. split; [done|].
  unfold calculate_burnout_risk. rewrite Ht, bind_Ok.
  split; [done|]. by repeat split.
Qed.

(** C2.  The label is a three-way threshold classifier on the normalized
    risk score: Green iff [risk_score <= green_max], Yellow iff
    [green_max < risk_score <= yellow_max], Red otherwise; a score equal
    to [green_max] gives Green and, with [green_max < yellow_max], a score
    equal to [yellow_max] gives Yellow. *)
Theorem burnout_label_classifier (mood stress sleep energy : list Q)
    (cfg : ScoringConfig) (max_reasons : Z) (debug : bool) :
  exists t r,
    risk_terms mood stress sleep energy cfg = Ok t /\
    normalize_0_100 (risk_raw t) (risk_raw_min cfg) (risk_raw_max cfg)
      = Ok (risk_score t) /\
    calculate_burnout_risk mood stress sleep energy cfg max_reasons debug
      = Ok r /\
    (burnout_risk_label r = Green <-> risk_score t <= green_max cfg) /\
    (burnout_risk_label r = Yellow <->
       green_max cfg < risk_score t /\ risk_score t <= yellow_max cfg) /\
    (burnout_risk_label r = Red <->
       ~ risk_score t <= green_max cfg /\ ~ risk_score t <= yellow_max cfg) /\
    (risk_score t == green_max cfg -> burnout_risk_label r = Green) /\
    (green_max cfg < yellow_max cfg -> risk_score t == yellow_max cfg ->
       burnout_risk_label r = Yellow).
Proof.
  destruct (calculate_burnout_risk_returns mood stress sleep energy cfg
              max_reasons debug) as (t & r & Ht & Hr & _ & Hlabel & _).
  exists t, r. split; [done|].
  split; [by apply (risk_terms_inv mood stress sleep energy)|].
  split; [done|].
  rewrite Hlabel. unfold risk_label.
  destruct (Qle_bool (risk_score t) (green_max cfg)) eqn:Eg;
    [apply Qle_bool_iff in Eg
    |assert (~ risk_score t <= green_max cfg) as Hg
       by (rewrite <- Qle_bool_iff; congruence)];
  (destruct (Qle_bool (risk_score t) (yellow_max cfg)) eqn:Ey;
    [apply Qle_bool_iff in Ey
    |assert (~ risk_score t <= yellow_max cfg) as Hy
       by (rewrite <- Qle_bool_iff; congruence)]);
  repeat split; try done; try tauto; try lra; intros; try lra.
Qed.

(** ** The sort of the candidates *)

Lemma insert_desc_perm (c : candidate) (l : list candidate) :
  insert_desc c l ≡ₚ c :: l.
Proof.
  induction l as [|d l IH]; simpl; [done|].
  destruct (Qle_bool (contribution d) (contribution c)); [done|].
  rewrite IH. apply perm_swap.
Qed.

Lemma sort_desc_perm (l : list candidate) : sort_desc l ≡ₚ l.
Proof.
  induction l as [|c l IH]; simpl; [done|].
  by rewrite insert_desc_perm, IH.
Qed.

Lemma sort_desc_length (l : list candidate) :
  length (sort_desc l) = length l.
Proof. by rewrite sort_desc_perm. Qed.

Lemma insert_desc_sorted (c : candidate) (l : list candidate) :
  StronglySorted ranks_before l -> StronglySorted ranks_before (insert_desc c l).
Proof.
  induction 1 as [|d l Hl IH Hd]; simpl.
  - repeat constructor.
  - destruct (Qle_bool (contribution d) (contribution c)) eqn:E.
    + apply Qle_bool_iff in E.
      constructor; [by constructor|].
      constructor; [done|].
      eapply Forall_impl; [exact Hd|].
      unfold ranks_before. intros x Hx. lra.
    + assert (~ contribution d <= contribution c) as Hlt
        by (rewrite <- Qle_bool_iff; congruence).
      constructor; [done|].
      rewrite insert_desc_perm. constructor; [|done].
      unfold ranks_before. lra.
Qed.

Lemma sort_desc_sorted (l : list candidate) :
  StronglySorted ranks_before (sort_desc l).
Proof.
  induction l as [|c l IH]; simpl; [constructor|].
  by apply insert_desc_sorted.
Qed.

Lemma insert_desc_stable (q : Q) (c : candidate) (l : list candidate) :
  with_contribution q (insert_desc c l) = with_contribution q (c :: l).
Proof.
  unfold with_contribution.
  induction l as [|d l IH]; [done|]. simpl insert_desc.
  destruct (Qle_bool (contribution d) (contribution c)) eqn:E; [done|].
  assert (~ contribution d <= contribution c) as Hlt
    by (rewrite <- Qle_bool_iff; congruence).
  simpl in *. rewrite IH.
  destruct (Qeq_bool (contribution d) q) eqn:Ed; [|done].
  destruct (Qeq_bool (contribution c) q) eqn:Ec; [|done].
  apply Qeq_bool_eq in Ed, Ec. lra.
Qed.

Lemma sort_desc_stable (q : Q) (l : list candidate) :
  with_contribution q (sort_desc l) = with_contribution q l.
Proof.
  induction l as [|c l IH]; [done|]. simpl sort_desc.
  rewrite insert_desc_stable. unfold with_contribution in *.
  simpl. by rewrite IH.
Qed.

(** ** The gates *)

Lemma gate_spec_intro (name : string) (value term high_at moderate_at : Q)
    (high_msg moderate_msg : string) :
  gate_spec name value term high_at moderate_at high_msg moderate_msg
    (if Qle_bool high_at value then [(name, term, high_msg)]
     else if Qle_bool moderate_at value then [(name, term, moderate_msg)]
     else []).
Proof.
  unfold gate_spec.
  destruct (Qle_bool high_at value) eqn:Eh;
    [apply Qle_bool_iff in Eh
    |assert (~ high_at <= value) by (rewrite <- Qle_bool_iff; congruence)];
  (destruct (Qle_bool moderate_at value) eqn:Em;
    [apply Qle_bool_iff in Em
    |assert (~ moderate_at <= value) by (rewrite <- Qle_bool_iff; congruence)]);
  repeat split; intros; try done; lra.
Qed.

Lemma reason_candidates_gates (t : RiskTerms) :
  exists g_stress g_sleep g_energy g_mood,
    reason_candidates t = g_stress ++ g_sleep ++ g_energy ++ g_mood /\
    gate_spec "stress" (avg_stress t) (stress_term t) 7 5.5
      "High average stress over the past week."
      "Moderate stress levels have been persistent." g_stress /\
    gate_spec "sleep" (sleep_deficit t) (sleep_term t) 2 1
      "Significant sleep deficit compared to the 8-hour target."
      "Not consistently meeting the 8-hour sleep target." g_sleep /\
    gate_spec "energy" (energy_deficit t) (energy_term t) 4 2
      "Low energy levels on average."
      "Energy levels have been slightly below ideal." g_energy /\
    gate_spec "mood" (mood_downtrend t) (mood_term t) 0.35 0.20
      "Mood has been trending downward across the week."
      "Slight downward mood trend detected." g_mood.
Proof.
  eexists _, _, _, _.
  split; [|split; [apply gate_spec_intro|split; [apply gate_spec_intro|
           split; [apply gate_spec_intro|apply gate_spec_intro]]]].
  unfold reason_candidates.
  destruct (Qle_bool 7 (avg_stress t)), (Qle_bool 5.5 (avg_stress t)),
    (Qle_bool 2 (sleep_deficit t)), (Qle_bool 1 (sleep_deficit t)),
    (Qle_bool 4 (energy_deficit t)), (Qle_bool 2 (energy_deficit t)),
    (Qle_bool 0.35 (mood_downtrend t)), (Qle_bool 0.20 (mood_downtrend t));
    reflexivity.
Qed.

Lemma reason_candidates_not_fallback (t : RiskTerms) :
  Forall (fun c => message c <> fallback_reason) (reason_candidates t).
Proof.
  unfold reason_candidates.
  destruct (Qle_bool 7 (avg_stress t)), (Qle_bool 5.5 (avg_stress t)),
    (Qle_bool 2 (sleep_deficit t)), (Qle_bool 1 (sleep_deficit t)),
    (Qle_bool 4 (energy_deficit t)), (Qle_bool 2 (energy_deficit t)),
    (Qle_bool 0.35 (mood_downtrend t)), (Qle_bool 0.20 (mood_downtrend t));
    simpl; repeat constructor; discriminate.
Qed.

(** ** The selection of the reasons *)

Lemma top_candidates_length (candidates : list candidate) (max_reasons : Z) :
  (length (top_candidates candidates max_reasons)
   <= Z.to_nat (Z.max 0 max_reasons))%nat.
Proof. unfold top_candidates. rewrite length_take. lia. Qed.

Lemma top_candidates_nil (candidates : list candidate) (max_reasons : Z) :
  top_candidates candidates max_reasons = [] <->
  candidates = [] \/ (max_reasons <= 0)%Z.
Proof.
  unfold top_candidates. split.
  - intros H. apply (f_equal length) in H.
    rewrite length_take, sort_desc_length in H. simpl in H.
    destruct candidates as [|c l]; [by left|right].
    simpl in H. lia.
  - intros [->|H]; [simpl; by rewrite take_nil|].
    by replace (Z.to_nat (Z.max 0 max_reasons)) with 0%nat by lia.
Qed.

Lemma select_reasons_top (candidates : list candidate) (max_reasons : Z) :
  top_candidates candidates max_reasons <> [] ->
  select_reasons candidates max_reasons
    = map message (top_candidates candidates max_reasons).
Proof.
  intros H. unfold select_reasons.
  by destruct (top_candidates candidates max_reasons).
Qed.

Lemma select_reasons_fallback (candidates : list candidate) (max_reasons : Z) :
  top_candidates candidates max_reasons = [] ->
  select_reasons candidates max_reasons = [fallback_reason].
Proof. intros H. unfold select_reasons. by rewrite H. Qed.

Lemma select_reasons_nonempty (candidates : list candidate) (max_reasons : Z) :
  select_reasons candidates max_reasons <> [].
Proof.
  unfold select_reasons.
  by destruct (top_candidates candidates max_reasons).
Qed.

Lemma top_candidates_not_fallback (t : RiskTerms) (max_reasons : Z) :
  Forall (fun c => message c <> fallback_reason)
    (top_candidates (reason_candidates t) max_reasons).
Proof.
  unfold top_candidates. apply Forall_take.
  rewrite sort_desc_perm. apply reason_candidates_not_fallback.
Qed.

(** C10.  For every input and every [max_reasons], also 0 and negative,
    [burnout_reasons] holds at least one message: the fallback message
    stands in whenever the truncated list of reasons is empty, also when
    gates fired and [max_reasons] cut the list to nothing. *)
Theorem burnout_reasons_never_empty (mood stress sleep energy : list Q)
    (cfg : ScoringConfig) (max_reasons : Z) (debug : bool) :
  exists t r,
    risk_terms mood stress sleep energy cfg = Ok t /\
    calculate_burnout_risk mood stress sleep energy cfg max_reasons debug
      = Ok r /\
    burnout_reasons r <> [] /\
    (1 <= length (burnout_reasons r))%nat /\
    (top_candidates (reason_candidates t) max_reasons = [] ->
       burnout_reasons r = [fallback_reason]) /\
    ((max_reasons <= 0)%Z -> burnout_reasons r = [fallback_reason]).
Proof.
  destruct (calculate_burnout_risk_returns mood stress sleep energy cfg
              max_reasons debug) as (t & r & Ht & Hr & _ & _ & Hreasons).
  exists t, r. split; [done|]. split; [done|]. rewrite Hreasons.
  pose proof (select_reasons_nonempty (reason_candidates t) max_reasons) as Hne.
  split; [done|].
  split; [destruct (select_reasons _ _); [done|simpl; lia]|].
  split; [apply select_reasons_fallback|].
  intros Hmax. apply select_reasons_fallback, top_candidates_nil. by right.
Qed.

Lemma burnout_reasons_never_empty_witness :
  exists r,
    calculate_burnout_risk [5; 5] [8; 8] [8; 8] [10; 10] DEFAULT_CFG (-2) false
      = Ok r /\
    burnout_reasons r = [fallback_reason].
Proof.
  destruct (burnout_reasons_never_empty [5; 5] [8; 8] [8; 8] [10; 10]
              DEFAULT_CFG (-2) false) as (t & r & _ & Hr & _ & _ & _ & Hneg).
  exists r. split; [exact Hr|]. apply Hneg. lia.
Defined.

(** C1, as amended.  Each of the four factors contributes at most one
    candidate, the high message taking precedence over the moderate one,
    in the order stress, sleep, energy, mood; the candidates are sorted by
    descending contribution, candidates of equal contribution keeping
    their order; the first [max(0, max_reasons)] of them are kept in that
    order.  When this truncated list is not empty its messages are the
    reasons, at most [max_reasons] of them; the fallback message alone is
    returned iff the truncated list is empty, that is iff no gate fired or
    [max_reasons <= 0].  So for [max_reasons >= 1] the list never exceeds
    [max_reasons] and the fallback is returned iff no gate fired. *)
Theorem burnout_reasons_ranked (mood stress sleep energy : list Q)
    (cfg : ScoringConfig) (max_reasons : Z) (debug : bool) :
  exists t r,
    risk_terms mood stress sleep energy cfg = Ok t /\
    calculate_burnout_risk mood stress sleep energy cfg max_reasons debug
      = Ok r /\
    let candidates := reason_candidates t in
    let ranked := sort_desc candidates in
    let top := take (Z.to_nat (Z.max 0 max_reasons)) ranked in
    (exists g_stress g_sleep g_energy g_mood,
       candidates = g_stress ++ g_sleep ++ g_energy ++ g_mood /\
       gate_spec "stress" (avg_stress t) (stress_term t) 7 5.5
         "High average stress over the past week."
         "Moderate stress levels have been persistent." g_stress /\
       gate_spec "sleep" (sleep_deficit t) (sleep_term t) 2 1
         "Significant sleep deficit compared to the 8-hour target."
         "Not consistently meeting the 8-hour sleep target." g_sleep /\
       gate_spec "energy" (energy_deficit t) (energy_term t) 4 2
         "Low energy levels on average."
         "Energy levels have been slightly below ideal." g_energy /\
       gate_spec "mood" (mood_downtrend t) (mood_term t) 0.35 0.20
         "Mood has been trending downward across the week."
         "Slight downward mood trend detected." g_mood) /\
    ranked ≡ₚ candidates /\
    StronglySorted ranks_before ranked /\
    (forall q, with_contribution q ranked = with_contribution q candidates) /\
    (top <> [] -> burnout_reasons r = map message top) /\
    (length top <= Z.to_nat (Z.max 0 max_reasons))%nat /\
    (burnout_reasons r = [fallback_reason] <-> top = []) /\
    (top = [] <-> candidates = [] \/ (max_reasons <= 0)%Z) /\
    ((1 <= max_reasons)%Z ->
       (Z.of_nat (length (burnout_reasons r)) <= max_reasons)%Z /\
       (burnout_reasons r = [fallback_reason] <-> candidates = [])).
Proof.
  destruct (calculate_burnout_risk_returns mood stress sleep energy cfg
              max_reasons debug) as (t & r & Ht & Hr & _ & _ & Hreasons).
  exists t, r. split; [done|]. split; [done|].
  intros candidates ranked top.
  change top with (top_candidates candidates max_reasons).
  clearbody top. clear top.
  set (top := top_candidates candidates max_reasons).
  assert (burnout_reasons r = [fallback_reason] <-> top = []) as Hfallback.
  { rewrite Hreasons. split.
    - intros Hsel. destruct top as [|c l] eqn:Etop; [done|exfalso].
      rewrite select_reasons_top in Hsel
        by (fold candidates top; by rewrite Etop).
      fold candidates top in Hsel. rewrite Etop in Hsel.
      pose proof (top_candidates_not_fallback t max_reasons) as Hnf.
      fold candidates top in Hnf. rewrite Etop in Hnf.
      apply Forall_cons in Hnf as [Hc _].
      simpl in Hsel. by injection Hsel as Hmsg _.
    - apply select_reasons_fallback. }
  pose proof (top_candidates_length candidates max_reasons) as Hlen.
  pose proof (top_candidates_nil candidates max_reasons) as Hnil.
  fold top in Hlen, Hnil.
  split; [apply reason_candidates_gates|].
  split; [apply sort_desc_perm|].
  split; [apply sort_desc_sorted|].
  split; [intros q; apply sort_desc_stable|].
  split; [rewrite Hreasons; apply select_reasons_top|].
  split; [done|]. split; [done|]. split; [done|].
  intros Hmax. split.
  - destruct top as [|c l] eqn:Etop.
    + rewrite (proj2 Hfallback) by done. simpl. lia.
    + rewrite Hreasons, select_reasons_top
        by (fold candidates top; by rewrite Etop).
      fold candidates top. rewrite Etop, length_map. lia.
  - rewrite Hfallback, Hnil. split; [intros [H|H]; [done|lia]|by left].
Qed.

Lemma burnout_reasons_ranked_witness :
  exists r,
    calculate_burnout_risk [1; 5.5; 5; 4; 3.5; 3; 2.5]
      [8; 8.5; 9; 8.5; 9; 9; 8.5] [4.5; 1; 4; 1; 4; 4; 4.5]
      [4; 3.5; 3; 3; 1; 2; 2] DEFAULT_CFG 2 false = Ok r /\
    (Z.of_nat (length (burnout_reasons r)) <= 2)%Z.
Proof.
  destruct (burnout_reasons_ranked [1; 5.5; 5; 4; 3.5; 3; 2.5]
              [8; 8.5; 9; 8.5; 9; 9; 8.5] [4.5; 1; 4; 1; 4; 4; 4.5]
              [4; 3.5; 3; 3; 1; 2; 2] DEFAULT_CFG 2 false)
    as (t & r & _ & Hr & H).
  cbv zeta in H. destruct H as (_ & _ & _ & _ & _ & _ & _ & _ & Hmax).
  exists r. split; [exact Hr|]. apply Hmax. lia.
Defined.

(** C1 as stated fails for [max_reasons = 0]: with an average stress of 8
    the stress gate fires, yet the truncated list is empty, the fallback
    message is returned, and the list has one entry, more than
    [max_reasons]. *)
Lemma burnout_reasons_cap_counterexample :
  exists t r,
    risk_terms [5; 5] [8; 8] [8; 8] [10; 10] DEFAULT_CFG = Ok t /\
    calculate_burnout_risk [5; 5] [8; 8] [8; 8] [10; 10] DEFAULT_CFG 0 false
      = Ok r /\
    reason_candidates t
      = [("stress", stress_term t, "High average stress over the past week.")] /\
    burnout_reasons r = [fallback_reason] /\
    ~ (Z.of_nat (length (burnout_reasons r)) <= 0)%Z.
Proof.
  eexists _, _.
  split; [vm_compute; reflexivity|].
  split; [vm_compute; reflexivity|].
  split; [reflexivity|].
  split; [reflexivity|].
  simpl. lia.
Qed.

Lemma burnout_label_classifier_witness :
  exists r,
    calculate_burnout_risk [5; 5] [22 # 3] [8] [10] DEFAULT_CFG 3 false = Ok r /\
    burnout_risk_score r == 33 /\
    burnout_risk_label r = Green.
Proof.
  destruct (burnout_label_classifier [5; 5] [22 # 3] [8] [10] DEFAULT_CFG 3
              false) as (t & r & Ht & _ & Hr & _ & _ & _ & Hgreen & _).
  exists r. split; [exact Hr|].
  vm_compute in Ht. injection Ht as <-.
  split; [|by apply Hgreen].
  vm_compute in Hr. by injection Hr as <-.
Defined.

(** ** Stress accumulation *)

Lemma accumulate_length (decay prev : Q) (stress : list Q) :
  length (accumulate decay prev stress) = length stress.
Proof.
  revert prev. induction stress as [|s stress IH]; intros prev; simpl; [done|].
  by rewrite IH.
Qed.

Lemma accumulate_head (decay prev s0 : Q) (stress : list Q) :
  stress !! 0%nat = Some s0 ->
  accumulate decay prev stress !! 0%nat = Some (decay * prev + s0).
Proof. destruct stress as [|s stress]; simpl; [done|]. by intros [= ->]. Qed.

Lemma accumulate_step (decay prev : Q) (stress : list Q) (i : nat) (a s : Q) :
  accumulate decay prev stress !! i = Some a ->
  stress !! S i = Some s ->
  accumulate decay prev stress !! S i = Some (decay * a + s).
Proof.
  revert prev i. induction stress as [|s0 stress IH]; intros prev i; [done|].
  destruct i as [|i]; simpl.
  - intros [= <-] Hs. by apply accumulate_head.
  - intros Ha Hs. by apply (IH _ i).
Qed.

Lemma calculate_stress_accumulation_returns (stress : list Q)
    (cfg : ScoringConfig) :
  let curve := accumulate (clamp (stress_decay cfg) 0 0.99) 0 stress in
  exists slope,
    linear_trend_slope curve = Ok slope /\
    calculate_stress_accumulation stress cfg =
      Ok {| accumulation_curve := map (fun x => py_round x 3) curve;
            accumulation_trend_slope := py_round slope 4;
            latest_accumulation :=
              match curve with
              | [] => 0
              | _ => py_round (List.last curve 0) 3
              end |}.
Proof.
  intros curve.
  destruct (linear_trend_slope_returns curve) as [slope Hslope].
  exists slope. split; [done|].
  unfold calculate_stress_accumulation. fold curve.
  by rewrite Hslope, bind_Ok.
Qed.

(** C3.  [calculate_stress_accumulation] computes [A[0] = stress[0]] and
    [A[i] = decay * A[i-1] + stress[i]], where [decay] is the configured
    decay clamped to [0, 0.99] whatever its configured value; the curve is
    returned rounded to 3 decimals; for [stress = [1, 1, 1, 1]] and a
    decay of 0.8 the rounded curve is [1.0, 1.8, 2.44, 2.952]; and on the
    empty input the curve is empty and slope and latest value are 0. *)
Theorem stress_accumulation_recurrence (stress : list Q) (cfg : ScoringConfig) :
  let decay := clamp (stress_decay cfg) 0 0.99 in
  let curve := accumulate decay 0 stress in
  (0 <= decay /\ decay <= 0.99) /\
  (0 <= stress_decay cfg -> stress_decay cfg <= 0.99 ->
     decay == stress_decay cfg) /\
  (0.99 <= stress_decay cfg -> decay == 0.99) /\
  (stress_decay cfg <= 0 -> decay == 0) /\
  length curve = length stress /\
  (forall s0, stress !! 0%nat = Some s0 ->
     exists a0, curve !! 0%nat = Some a0 /\ a0 == s0) /\
  (forall i a s, curve !! i = Some a -> stress !! S i = Some s ->
     curve !! S i = Some (decay * a + s)) /\
  (exists slope r,
     linear_trend_slope curve = Ok slope /\
     calculate_stress_accumulation stress cfg = Ok r /\
     accumulation_curve r = map (fun x => py_round x 3) curve /\
     accumulation_trend_slope r = py_round slope 4 /\
     (curve <> [] -> latest_accumulation r = py_round (List.last curve 0) 3) /\
     (stress = [] ->
        accumulation_curve r = [] /\
        accumulation_trend_slope r == 0 /\
        latest_accumulation r = 0) /\
     (stress_decay cfg = 0.8 -> stress = [1; 1; 1; 1] ->
        Forall2 Qeq (accumulation_curve r) [1; 1.8; 2.44; 2.952])).
Proof.
  intros decay curve.
  split; [apply clamp_bounds; lra|].
  split; [intros; apply clamp_inside; lra|].
  split; [intros; apply clamp_above; lra|].
  split; [intros; apply clamp_below; lra|].
  split; [apply accumulate_length|].
  split.
  { intros s0 Hs0. eexists. split; [by apply accumulate_head|]. ring. }
  split; [intros i a s; apply accumulate_step|].
  destruct (calculate_stress_accumulation_returns stress cfg)
    as (slope & Hslope & Hr).
  fold decay curve in Hslope, Hr.
  exists slope. eexists. split; [done|]. split; [exact Hr|]. simpl.
  split; [done|]. split; [done|].
  split; [by destruct curve|].
  split.
  - intros ->. simpl in *. injection Hslope as <-. by repeat split.
  - intros Hd ->. unfold curve, decay. rewrite Hd.
    repeat constructor; reflexivity.
Qed.

Lemma stress_accumulation_recurrence_witness :
  exists r,
    calculate_stress_accumulation [1; 1; 1; 1] DEFAULT_CFG = Ok r /\
    Forall2 Qeq (accumulation_curve r) [1; 1.8; 2.44; 2.952] /\
    latest_accumulation r == 2.952.
Proof.
  destruct (stress_accumulation_recurrence [1; 1; 1; 1] DEFAULT_CFG)
    as (_ & _ & _ & _ & _ & _ & _ & slope & r & _ & Hr & _ & _ & Hlast & _ & Hex).
  exists r. split; [exact Hr|]. split; [by apply Hex|].
  rewrite Hlast by done. reflexivity.
Defined.

(** ** Constant series *)

Lemma mean_const (c : Q) (xs : list Q) :
  Forall (Qeq c) xs -> xs <> [] -> exists m, mean xs = Ok m /\ m == c.
Proof.
  intros Hc Hne. destruct xs as [|x xs]; [done|].
  eexists. split; [apply mean_cons|].
  rewrite (py_sum_const c) by done.
  pose proof (py_len_cons_pos x xs). field. lra.
Qed.

Lemma stddev_const (sqrtQ : Q -> Q) (c : Q) (xs : list Q) :
  (forall x, x == 0 -> sqrtQ x == 0) ->
  Forall (Qeq c) xs -> exists s, stddev sqrtQ xs = Ok s /\ s == 0.
Proof.
  intros Hsqrt Hc. destruct xs as [|x xs]; [by exists 0|].
  set (m := py_sum (x :: xs) / py_len (x :: xs)).
  assert (m == c) as Hm.
  { unfold m. rewrite (py_sum_const c) by done.
    pose proof (py_len_cons_pos x xs). field. lra. }
  assert (Forall (fun y => (y - m) ^ 2 == 0) (x :: xs)) as Hzero.
  { eapply Forall_impl; [exact Hc|]. intros y Hy. simpl in Hy.
    rewrite Hm, <- Hy. simpl. ring. }
  destruct (stddev_cons sqrtQ x xs) as [_ ->].
  { fold m. eapply Forall_impl; [exact Hzero|]. intros y Hy. simpl in Hy.
    unfold square_fits. rewrite Hy. vm_compute. reflexivity. }
  eexists. split; [done|]. apply Hsqrt. fold m.
  rewrite py_sum_zero.
  - pose proof (py_len_cons_pos x xs). field. lra.
  - apply List.Forall_forall. intros y Hy.
    apply in_map_iff in Hy as (z & <- & Hz).
    rewrite List.Forall_forall in Hzero. symmetry. by apply Hzero.
Qed.

Lemma abs_deltas_const (c : Q) (xs : list Q) :
  Forall (Qeq c) xs -> Forall (Qeq 0) (abs_deltas xs).
Proof.
  induction 1 as [|x xs Hx Hxs IH]; [constructor|].
  destruct xs as [|y xs]; [constructor|].
  change (abs_deltas (x :: y :: xs))
    with (Qabs (y - x) :: abs_deltas (y :: xs)).
  constructor; [|exact IH].
  apply Forall_cons in Hxs as [Hy _].
  assert (y - x == 0) as Hd by (rewrite <- Hx, <- Hy; ring).
  rewrite Hd. reflexivity.
Qed.

Lemma avg_abs_delta_const (c : Q) (xs : list Q) :
  Forall (Qeq c) xs -> exists j, avg_abs_delta xs = Ok j /\ j == 0.
Proof.
  intros Hc. destruct (Nat.lt_ge_cases (length xs) 2) as [H|H].
  - exists 0. by rewrite avg_abs_delta_short.
  - eexists. split; [by apply avg_abs_delta_long|].
    rewrite py_sum_zero by (by apply (abs_deltas_const c)).
    pose proof (py_len_ge_2 xs H). field. lra.
Qed.

Lemma slope_sums_const (t_mean x_mean : Q) (t : Z) (xs : list Q) (acc : Q * Q) :
  Forall (Qeq x_mean) xs ->
  (slope_sums t_mean x_mean t xs acc).1 == acc.1.
Proof.
  intros Hc. revert t acc.
  induction Hc as [|x xs Hx _ IH]; intros t acc; simpl; [done|].
  rewrite IH. simpl. rewrite <- Hx. ring.
Qed.

Lemma linear_trend_slope_const (c : Q) (xs : list Q) :
  Forall (Qeq c) xs -> exists k, linear_trend_slope xs = Ok k /\ k == 0.
Proof.
  intros Hc. destruct (Nat.lt_ge_cases (length xs) 2) as [H|H].
  - exists 0. by rewrite linear_trend_slope_short.
  - destruct (linear_trend_slope_long xs H) as (m & Hm & ->).
    eexists. split; [done|].
    assert (xs <> []) as Hne by (intros ->; simpl in H; lia).
    destruct (mean_const c xs Hc Hne) as (m' & Hm' & Hmc).
    rewrite Hm in Hm'. injection Hm' as <-.
    assert (Forall (Qeq m) xs) as Hcm.
    { eapply Forall_impl; [exact Hc|]. intros x Hx. by rewrite Hmc. }
    pose proof (slope_sums_const ((py_len xs - 1) / 2) m 0 xs (0, 0) Hcm)
      as Hnum.
    destruct (slope_sums ((py_len xs - 1) / 2) m 0 xs (0, 0)) as [num den].
    simpl in *.
    destruct (Qeq_bool den 0) eqn:E; [done|].
    apply Qeq_bool_neq in E. rewrite Hnum. by field.
Qed.

(** ** Volatility *)

Lemma abs_deltas_length (xs : list Q) :
  length (abs_deltas xs) = pred (length xs).
Proof.
  induction xs as [|x xs IH]; [done|].
  destruct xs as [|y xs]; [done|].
  change (abs_deltas (x :: y :: xs))
    with (Qabs (y - x) :: abs_deltas (y :: xs)).
  simpl length in *. by rewrite IH.
Qed.

Lemma abs_deltas_lookup (xs : list Q) (i : nat) (a b : Q) :
  xs !! i = Some a -> xs !! S i = Some b ->
  abs_deltas xs !! i = Some (Qabs (b - a)).
Proof.
  revert i. induction xs as [|x xs IH]; intros i Ha Hb; [done|].
  destruct xs as [|y xs]; [done|].
  change (abs_deltas (x :: y :: xs))
    with (Qabs (y - x) :: abs_deltas (y :: xs)).
  destruct i as [|i].
  - injection Ha as <-. by injection Hb as <-.
  - apply (IH i); [exact Ha|exact Hb].
Qed.

Lemma stddev_inv (sqrtQ : Q -> Q) (xs : list Q) (s : Q) :
  stddev sqrtQ xs = Ok s ->
  exists m,
    mean xs = Ok m /\
    (xs = [] -> s = 0) /\
    (xs <> [] ->
       let var := py_sum (map (fun x => (x - m) ^ 2) xs) / py_len xs in
       Forall (fun x => square_fits (x - m)) xs /\
       0 <= var /\ s = sqrtQ var).
Proof.
  intros Hs. destruct xs as [|x xs].
  - injection Hs as <-. exists 0. done.
  - eexists. split; [apply mean_cons|]. split; [done|]. intros _ var.
    destruct (squares_fit_dec (py_sum (x :: xs) / py_len (x :: xs)) (x :: xs))
      as [H|H].
    + destruct (stddev_cons sqrtQ x xs H) as [Hvar Hs'].
      rewrite Hs in Hs'. injection Hs' as ->. done.
    + by rewrite (stddev_overflow sqrtQ x xs H) in Hs.
Qed.

Lemma calculate_volatility_steps (sqrtQ : Q -> Q) (mood : list Q)
    (cfg : ScoringConfig) (s : Q) :
  stddev sqrtQ mood = Ok s ->
  exists j s_norm j_norm,
    avg_abs_delta mood = Ok j /\
    normalize_0_100 s (mood_std_min cfg) (mood_std_max cfg) = Ok s_norm /\
    normalize_0_100 j (mood_jump_min cfg) (mood_jump_max cfg) = Ok j_norm /\
    calculate_volatility sqrtQ mood cfg =
      Ok {| mood_std := py_round s 4;
            mood_jump := py_round j 4;
            volatility_score :=
              py_round (vol_w_std cfg * s_norm + vol_w_jump cfg * j_norm) 2 |}.
Proof.
  intros Hs.
  destruct (avg_abs_delta_returns mood) as [j Hj].
  destruct (normalize_0_100_returns s (mood_std_min cfg) (mood_std_max cfg))
    as [s_norm Hsn].
  destruct (normalize_0_100_returns j (mood_jump_min cfg) (mood_jump_max cfg))
    as [j_norm Hjn].
  exists j, s_norm, j_norm. repeat (split; [done|]).
  unfold calculate_volatility.
  by rewrite Hs, bind_Ok, Hj, bind_Ok, Hsn, bind_Ok, Hjn, bind_Ok.
Qed.

(** [calculate_volatility] returns when [stddev] does, and raises what
    [stddev] raises. *)
Lemma calculate_volatility_returns (sqrtQ : Q -> Q) (mood : list Q)
    (cfg : ScoringConfig) :
  returns (stddev sqrtQ mood) -> returns (calculate_volatility sqrtQ mood cfg).
Proof.
  intros [s Hs].
  destruct (calculate_volatility_steps sqrtQ mood cfg s Hs)
    as (j & s_norm & j_norm & _ & _ & _ & ->).
  apply returns_Ok.
Qed.

Lemma calculate_volatility_raises (sqrtQ : Q -> Q) (mood : list Q)
    (cfg : ScoringConfig) (e : exn) :
  stddev sqrtQ mood = Raise e -> calculate_volatility sqrtQ mood cfg = Raise e.
Proof. intros H. unfold calculate_volatility. by rewrite H. Qed.

Lemma calculate_volatility_outcome (sqrtQ : Q -> Q) (mood : list Q)
    (cfg : ScoringConfig) :
  returns (calculate_volatility sqrtQ mood cfg) \/
  calculate_volatility sqrtQ mood cfg = Raise OverflowError.
Proof.
  destruct (stddev_outcome sqrtQ mood) as [H|H].
  - left. by apply calculate_volatility_returns.
  - right. by apply calculate_volatility_raises.
Qed.

Lemma calculate_volatility_bounded (sqrtQ : Q -> Q) (mood : list Q)
    (cfg : ScoringConfig) :
  bounded_series mood -> returns (calculate_volatility sqrtQ mood cfg).
Proof.
  intros Hb. apply calculate_volatility_returns.
  destruct (stddev_bounded sqrtQ mood Hb) as (m & var & _ & _ & _ & ->).
  apply returns_Ok.
Qed.

Lemma normalize_0_100_value (x lo hi v : Q) :
  normalize_0_100 x lo hi = Ok v ->
  (hi <= lo -> v = 0) /\
  (lo < hi -> v = Qmax 0 (Qmin 100 ((x - lo) / (hi - lo) * 100))).
Proof.
  intros Hv. split; intros H.
  - rewrite normalize_0_100_degenerate in Hv by done. by injection Hv.
  - rewrite normalize_0_100_proper in Hv by done. by injection Hv.
Qed.




(** ** The report *)

(** C4 fails on the code.  On the sample request the endpoint answers
    with its own formulas: a battery of 75 and a burnout value of 50,
    where the engine's report on the same four series has a battery of
    50, a burnout score of 28.75, the label Green and one reason. *)
Theorem endpoint_diverges_from_engine (sqrtQ : Q -> Q) :
  exists db' resp report,
    Main.calculate_metrics sqrtQ sample_request sample_database
      = Ok (db', resp) /\
    generate_report sqrtQ (Main.series_of sample_request) DEFAULT_CFG
      = Ok report /\
    Main.emotionalBattery resp == 75 /\
    emotional_battery (metrics report) == 50 /\
    Main.burnoutLikelihood resp == 50 /\
    burnout_risk_score (burnout_risk (metrics report)) == 28.75 /\
    burnout_risk_label (burnout_risk (metrics report)) = Green /\
    burnout_reasons (burnout_risk (metrics report))
      = ["Low energy levels on average."].
Proof.
  eexists _, _, _.
  split; [reflexivity|].
  split; [reflexivity|].
  repeat (split; [lazy; reflexivity|]).
  lazy. reflexivity.
Qed.

(** * Further properties of the engine *)

(** ** [clamp] *)

(** [clamp] returns a value of [[lo, hi]] when [lo <= hi], returns [lo]
    when the bounds are swapped, and clamping twice is clamping once. *)
Theorem clamp_range_idempotent (x lo hi : Q) :
  (lo <= hi -> lo <= clamp x lo hi /\ clamp x lo hi <= hi) /\
  (hi < lo -> clamp x lo hi == lo) /\
  clamp (clamp x lo hi) lo hi == clamp x lo hi.
Proof.
  split; [apply clamp_bounds|].
  split; [intros H; unfold clamp; qminmax|].
  unfold clamp. qminmax.
Qed.

Lemma clamp_range_idempotent_witness :
  (0 <= clamp 12 0 10 /\ clamp 12 0 10 <= 10) /\ clamp 3 7 5 == 7.
Proof.
  destruct (clamp_range_idempotent 12 0 10) as (Hrange & _ & _).
  destruct (clamp_range_idempotent 3 7 5) as (_ & Hswap & _).
  split; [apply Hrange; lra|apply Hswap; lra].
Defined.

(** ** The trend slope *)

(** With two points or more the denominator of the slope is positive: the
    test [den != 0] never fails and the slope is [num / den]. *)
Theorem linear_trend_slope_denominator_positive (xs : list Q) :
  (2 <= length xs)%nat ->
  exists x_mean,
    mean xs = Ok x_mean /\
    let sums := slope_sums ((py_len xs - 1) / 2) x_mean 0 xs (0, 0) in
    0 < sums.2 /\ linear_trend_slope xs = Ok (sums.1 / sums.2).
Proof.
  intros H. destruct (linear_trend_slope_long xs H) as (m & Hm & Hslope).
  exists m. split; [done|]. intros sums.
  pose proof (slope_sums_den_pos m xs H) as Hden. fold sums in Hden.
  split; [done|]. rewrite Hslope. fold sums.
  destruct (Qeq_bool sums.2 0) eqn:E; [|done].
  apply Qeq_bool_eq in E. lra.
Qed.

Lemma linear_trend_slope_denominator_positive_witness :
  exists k, linear_trend_slope [1; 4; 2] = Ok k.
Proof.
  destruct (linear_trend_slope_denominator_positive [1; 4; 2])
    as (m & _ & _ & Hk); [simpl; lia|].
  eexists. exact Hk.
Defined.

(** ** Bounds of the stress accumulation *)

Lemma accumulate_bounded (decay prev bound : Q) (stress : list Q) :
  0 <= decay -> decay <= 0.99 ->
  0 <= prev -> prev <= 100 * bound ->
  Forall (fun s => 0 <= s /\ s <= bound) stress ->
  Forall (fun a => 0 <= a /\ a <= 100 * bound)
    (accumulate decay prev stress).
Proof.
  intros Hd0 Hd1 Hp0 Hp1 Hs. revert prev Hp0 Hp1.
  induction Hs as [|s stress [Hs0 Hs1] _ IH]; intros prev Hp0 Hp1; simpl.
  - constructor.
  - assert (0 <= decay * prev + s /\ decay * prev + s <= 100 * bound)
      as [H0 H1] by nra.
    constructor; [done|]. by apply IH.
Qed.

Lemma Forall_last {A} (P : A -> Prop) (l : list A) (d : A) :
  Forall P l -> l <> [] -> P (List.last l d).
Proof.
  induction 1 as [|x l Hx Hl IH]; [done|]. intros _.
  destruct l as [|y l]; [done|]. by apply IH.
Qed.

(** Whatever decay is configured, daily stress values in [[0, bound]] give
    a curve that stays in [[0, 100 * bound]]: the cap of the decay at 0.99
    bounds the accumulation.  The same holds for the latest value. *)
Theorem stress_accumulation_bounded (bound : Z) (stress : list Q)
    (cfg : ScoringConfig) :
  (0 <= bound)%Z ->
  Forall (fun s => 0 <= s /\ s <= inject_Z bound) stress ->
  exists r,
    calculate_stress_accumulation stress cfg = Ok r /\
    length (accumulation_curve r) = length stress /\
    Forall (fun a => 0 <= a /\ a <= inject_Z (100 * bound))
      (accumulation_curve r) /\
    0 <= latest_accumulation r /\
    latest_accumulation r <= inject_Z (100 * bound).
Proof.
  intros Hbound Hs.
  destruct (calculate_stress_accumulation_returns stress cfg)
    as (slope & _ & Hr).
  eexists. split; [exact Hr|]. simpl.
  set (decay := clamp (stress_decay cfg) 0 0.99).
  destruct (clamp_bounds (stress_decay cfg) 0 0.99) as [Hd0 Hd1]; [lra|].
  fold decay in Hd0, Hd1.
  assert (0 <= inject_Z bound) as Hb
    by (change 0 with (inject_Z 0); by rewrite <- Zle_Qle).
  assert (inject_Z (100 * bound) == 100 * inject_Z bound) as Hmul
    by (by rewrite inject_Z_mult).
  assert (Forall (fun a => 0 <= a /\ a <= inject_Z (100 * bound))
            (accumulate decay 0 stress)) as Hcurve.
  { eapply Forall_impl;
      [apply (accumulate_bounded decay 0 (inject_Z bound)); try done; lra|].
    intros a [Ha0 Ha1]. simpl. lra. }
  split; [by rewrite length_map, accumulate_length|].
  split.
  { rewrite Forall_map. eapply Forall_impl; [exact Hcurve|].
    intros a [Ha0 Ha1]. simpl. by apply (py_round_bounds 0). }
  destruct (accumulate decay 0 stress) as [|a curve] eqn:E; [lra|].
  rewrite <- E in *.
  assert (accumulate decay 0 stress <> []) as Hne by (by rewrite E).
  destruct (Forall_last _ _ 0 Hcurve Hne) as [Hl0 Hl1].
  by apply (py_round_bounds 0).
Qed.

Lemma stress_accumulation_bounded_witness :
  exists r,
    calculate_stress_accumulation [8; 8.5; 9; 8.5; 9; 9; 8.5] DEFAULT_CFG
      = Ok r /\
    Forall (fun a => 0 <= a /\ a <= 1000) (accumulation_curve r).
Proof.
  destruct (stress_accumulation_bounded 10 [8; 8.5; 9; 8.5; 9; 9; 8.5]
              DEFAULT_CFG) as (r & Hr & _ & Hcurve & _).
  - lia.
  - change (inject_Z 10) with 10.
    repeat (apply Forall_cons; split; [lra|]). constructor.
  - exists r. split; [exact Hr|exact Hcurve].
Defined.

(** ** Monotonicity of [round] and of the battery *)

Lemma py_round_mono (x y : Q) (n : nat) :
  x <= y -> py_round x n <= py_round y n.
Proof.
  intros Hxy. pose proof (scale_pos n) as Hs.
  set (s := inject_Z (10 ^ Z.of_nat n)) in *.
  assert (x * s <= y * s) as Hscaled by (apply Qmult_le_compat_r; lra).
  pose proof (Qfloor_resp_le _ _ Hscaled) as Hfloor.
  destruct (Z.eq_dec (Qfloor (x * s)) (Qfloor (y * s))) as [Heq|Hne].
  - unfold py_round. fold s. rewrite <- Heq.
    set (f := Qfloor (x * s)).
    destruct (Qcompare_spec (x * s - inject_Z f) (1 # 2)) as [Ex|Ex|Ex];
      destruct (Qcompare_spec (y * s - inject_Z f) (1 # 2)) as [Ey|Ey|Ey];
      try (exfalso; lra);
      destruct (Z.even f);
      apply Qdiv_le_mono; try done; rewrite <- Zle_Qle; lia.
  - destruct (py_round_digit x n) as (kx & -> & [_ Hkx] & _).
    destruct (py_round_digit y n) as (ky & -> & [Hky _] & _).
    fold s in Hkx, Hky |- *.
    apply Qdiv_le_mono; [done|]. rewrite <- Zle_Qle. lia.
Qed.

Lemma calculate_emotional_battery_returns (stress energy : list Q) (s e : Q) :
  mean stress = Ok s -> mean energy = Ok e ->
  calculate_emotional_battery stress energy
    = Ok (py_round (clamp (100 - (0.6 * s + 0.4 * (10 - e)) * 10) 0 100) 2).
Proof.
  intros Hs He. unfold calculate_emotional_battery.
  by rewrite Hs, bind_Ok, He, bind_Ok.
Qed.

(** The battery never rises when the average stress rises and the average
    energy falls. *)
Theorem emotional_battery_monotone (stress1 stress2 energy1 energy2 : list Q)
    (s1 s2 e1 e2 : Q) :
  mean stress1 = Ok s1 -> mean stress2 = Ok s2 ->
  mean energy1 = Ok e1 -> mean energy2 = Ok e2 ->
  s1 <= s2 -> e2 <= e1 ->
  exists b1 b2,
    calculate_emotional_battery stress1 energy1 = Ok b1 /\
    calculate_emotional_battery stress2 energy2 = Ok b2 /\
    b2 <= b1.
Proof.
  intros Hs1 Hs2 He1 He2 Hs He.
  eexists _, _.
  split; [by apply calculate_emotional_battery_returns|].
  split; [by apply calculate_emotional_battery_returns|].
  apply py_round_mono, clamp_mono. lra.
Qed.

Lemma emotional_battery_monotone_witness :
  exists b1 b2,
    calculate_emotional_battery [2; 3] [8; 8] = Ok b1 /\
    calculate_emotional_battery [8; 9] [3; 4] = Ok b2 /\
    b2 <= b1.
Proof.
  apply (emotional_battery_monotone _ _ _ _ (5 # 2) (17 # 2) (16 # 2) (7 # 2));
    try reflexivity; lra.
Defined.

(** ** More on the burnout risk *)

(** The risk score lies in [[0, 100]] for every input and configuration,
    and the [debug] flag only attaches the breakdown: score, label and
    reasons are the same with and without it. *)
Theorem burnout_risk_score_range_debug (mood stress sleep energy : list Q)
    (cfg : ScoringConfig) (max_reasons : Z) :
  exists r d,
    calculate_burnout_risk mood stress sleep energy cfg max_reasons false
      = Ok r /\
    calculate_burnout_risk mood stress sleep energy cfg max_reasons true
      = Ok d /\
    0 <= burnout_risk_score r /\ burnout_risk_score r <= 100 /\
    burnout_risk_score d = burnout_risk_score r /\
    burnout_risk_label d = burnout_risk_label r /\
    burnout_reasons d = burnout_reasons r /\
    components_debug r = None /\
    is_Some (components_debug d).
Proof.
  destruct (risk_terms_returns mood stress sleep energy cfg) as [t Ht].
  pose proof (risk_terms_inv _ _ _ _ _ _ Ht)
    as (_ & _ & _ & _ & _ & _ & _ & _ & _ & _ & _ & _ & Hscore).
  apply normalize_0_100_range in Hscore as [H0 H100].
  eexists _, _. unfold calculate_burnout_risk.
  rewrite Ht, !bind_Ok.
  split; [reflexivity|]. split; [reflexivity|]. simpl.
  split; [by apply py_round_percent|].
  split; [by apply py_round_percent|].
  repeat (split; [reflexivity|]). by eexists.
Qed.

Lemma gate_spec_length (name : string) (value term high_at moderate_at : Q)
    (high_msg moderate_msg : string) (g : list candidate) :
  gate_spec name value term high_at moderate_at high_msg moderate_msg g ->
  (length g <= 1)%nat.
Proof.
  intros (Hhigh & Hmod & Hnone).
  destruct (Qlt_le_dec value high_at) as [Hh|Hh].
  - destruct (Qlt_le_dec value moderate_at) as [Hm|Hm].
    + rewrite Hnone by done. simpl. lia.
    + rewrite Hmod by done. simpl. lia.
  - rewrite Hhigh by done. simpl. lia.
Qed.

Lemma reason_candidates_length (t : RiskTerms) :
  (length (reason_candidates t) <= 4)%nat.
Proof.
  destruct (reason_candidates_gates t)
    as (g1 & g2 & g3 & g4 & -> & H1 & H2 & H3 & H4).
  apply gate_spec_length in H1, H2, H3, H4.
  rewrite !length_app. lia.
Qed.

(** With [max_reasons >= 1] the first reason is the message of a fired
    candidate whose contribution no other fired candidate exceeds: the
    largest driver comes first. *)
Theorem largest_driver_first (mood stress sleep energy : list Q)
    (cfg : ScoringConfig) (max_reasons : Z) (debug : bool) :
  (1 <= max_reasons)%Z ->
  exists t r,
    risk_terms mood stress sleep energy cfg = Ok t /\
    calculate_burnout_risk mood stress sleep energy cfg max_reasons debug
      = Ok r /\
    (reason_candidates t <> [] ->
       exists c,
         c ∈ reason_candidates t /\
         head (burnout_reasons r) = Some (message c) /\
         Forall (fun d => contribution d <= contribution c)
           (reason_candidates t)).
Proof.
  intros Hmax.
  destruct (calculate_burnout_risk_returns mood stress sleep energy cfg
              max_reasons debug) as (t & r & Ht & Hr & _ & _ & Hreasons).
  exists t, r. split; [done|]. split; [done|]. intros Hne.
  pose proof (sort_desc_perm (reason_candidates t)) as Hperm.
  pose proof (sort_desc_sorted (reason_candidates t)) as Hsorted.
  destruct (sort_desc (reason_candidates t)) as [|c ranked] eqn:E.
  { apply Permutation_nil_l in Hperm. done. }
  exists c. split; [rewrite <- Hperm; by left|].
  split.
  - rewrite Hreasons. unfold select_reasons, top_candidates. rewrite E.
    destruct (Z.to_nat (Z.max 0 max_reasons)) as [|n] eqn:En; [lia|done].
  - rewrite <- Hperm. apply StronglySorted_inv in Hsorted as [_ Hc].
    constructor; [unfold contribution; lra|exact Hc].
Qed.

Lemma largest_driver_first_witness :
  exists r,
    calculate_burnout_risk [1; 5.5; 5; 4; 3.5; 3; 2.5]
      [8; 8.5; 9; 8.5; 9; 9; 8.5] [4.5; 1; 4; 1; 4; 4; 4.5]
      [4; 3.5; 3; 3; 1; 2; 2] DEFAULT_CFG 1 false = Ok r /\
    burnout_reasons r = ["High average stress over the past week."].
Proof.
  destruct (largest_driver_first [1; 5.5; 5; 4; 3.5; 3; 2.5]
              [8; 8.5; 9; 8.5; 9; 9; 8.5] [4.5; 1; 4; 1; 4; 4; 4.5]
              [4; 3.5; 3; 3; 1; 2; 2] DEFAULT_CFG 1 false)
    as (t & r & _ & Hr & _); [lia|].
  exists r. split; [exact Hr|].
  vm_compute in Hr. by injection Hr as <-.
Defined.

(** At most four reasons are ever returned, and with [max_reasons >= 4]
    nothing is cut: when a gate fires, the reasons are the messages of all
    fired candidates, in ranked order. *)
Theorem burnout_reasons_complete (mood stress sleep energy : list Q)
    (cfg : ScoringConfig) (max_reasons : Z) (debug : bool) :
  exists t r,
    risk_terms mood stress sleep energy cfg = Ok t /\
    calculate_burnout_risk mood stress sleep energy cfg max_reasons debug
      = Ok r /\
    (length (burnout_reasons r) <= 4)%nat /\
    ((4 <= max_reasons)%Z -> reason_candidates t <> [] ->
       burnout_reasons r = map message (sort_desc (reason_candidates t)) /\
       burnout_reasons r ≡ₚ map message (reason_candidates t)).
Proof.
  destruct (calculate_burnout_risk_returns mood stress sleep energy cfg
              max_reasons debug) as (t & r & Ht & Hr & _ & _ & Hreasons).
  exists t, r. split; [done|]. split; [done|].
  pose proof (reason_candidates_length t) as Hlen.
  pose proof (top_candidates_length (reason_candidates t) max_reasons) as Htop.
  split.
  - assert (length (top_candidates (reason_candidates t) max_reasons) <= 4)%nat
      as Hcut.
    { unfold top_candidates. rewrite length_take, sort_desc_length. lia. }
    rewrite Hreasons. unfold select_reasons.
    destruct (top_candidates (reason_candidates t) max_reasons) as [|c l];
      simpl in *; [lia|].
    rewrite length_map. lia.
  - intros Hmax Hne.
    assert (top_candidates (reason_candidates t) max_reasons
            = sort_desc (reason_candidates t)) as Hall.
    { unfold top_candidates. apply take_ge. rewrite sort_desc_length. lia. }
    assert (burnout_reasons r = map message (sort_desc (reason_candidates t)))
      as Heq.
    { rewrite Hreasons, select_reasons_top; [by rewrite Hall|].
      rewrite Hall. intros Hnil. apply Hne.
      apply (f_equal length) in Hnil. rewrite sort_desc_length in Hnil.
      by destruct (reason_candidates t). }
    split; [done|]. rewrite Heq. by rewrite sort_desc_perm.
Qed.

Lemma burnout_reasons_complete_witness :
  exists r,
    calculate_burnout_risk [1; 5.5; 5; 4; 3.5; 3; 2.5]
      [8; 8.5; 9; 8.5; 9; 9; 8.5] [4.5; 1; 4; 1; 4; 4; 4.5]
      [4; 3.5; 3; 3; 1; 2; 2] DEFAULT_CFG 10 false = Ok r /\
    length (burnout_reasons r) = 3%nat.
Proof.
  destruct (burnout_reasons_complete [1; 5.5; 5; 4; 3.5; 3; 2.5]
              [8; 8.5; 9; 8.5; 9; 9; 8.5] [4.5; 1; 4; 1; 4; 4; 4.5]
              [4; 3.5; 3; 3; 1; 2; 2] DEFAULT_CFG 10 false)
    as (t & r & Ht & Hr & _ & Hall).
  exists r. split; [exact Hr|].
  vm_compute in Ht. injection Ht as <-.
  destruct Hall as [-> _]; [lia|done|reflexivity].
Defined.

Lemma gate_spec_justified (name : string)
    (value term high_at moderate_at : Q) (high_msg moderate_msg : string)
    (g : list candidate) (c : candidate) :
  gate_spec name value term high_at moderate_at high_msg moderate_msg g ->
  c ∈ g ->
  (message c = high_msg /\ high_at <= value) \/
  (message c = moderate_msg /\ moderate_at <= value /\ value < high_at).
Proof.
  intros (Hhigh & Hmod & Hnone) Hc.
  destruct (Qlt_le_dec value high_at) as [Hh|Hh].
  - destruct (Qlt_le_dec value moderate_at) as [Hm|Hm].
    + rewrite Hnone in Hc by done. by apply elem_of_nil in Hc.
    + rewrite Hmod in Hc by done. apply list_elem_of_singleton in Hc as ->.
      by right.
  - rewrite Hhigh in Hc by done. apply list_elem_of_singleton in Hc as ->.
    by left.
Qed.

(** Every reason returned is justified: it is the fallback message, or
    the message of a gate whose threshold the factor has reached, the
    moderate message only below the high threshold. *)
Theorem burnout_reasons_justified (mood stress sleep energy : list Q)
    (cfg : ScoringConfig) (max_reasons : Z) (debug : bool) :
  exists t r,
    risk_terms mood stress sleep energy cfg = Ok t /\
    calculate_burnout_risk mood stress sleep energy cfg max_reasons debug
      = Ok r /\
    forall m, m ∈ burnout_reasons r ->
      m = fallback_reason \/
      (m = "High average stress over the past week." /\ 7 <= avg_stress t) \/
      (m = "Moderate stress levels have been persistent." /\
         5.5 <= avg_stress t /\ avg_stress t < 7) \/
      (m = "Significant sleep deficit compared to the 8-hour target." /\
         2 <= sleep_deficit t) \/
      (m = "Not consistently meeting the 8-hour sleep target." /\
         1 <= sleep_deficit t /\ sleep_deficit t < 2) \/
      (m = "Low energy levels on average." /\ 4 <= energy_deficit t) \/
      (m = "Energy levels have been slightly below ideal." /\
         2 <= energy_deficit t /\ energy_deficit t < 4) \/
      (m = "Mood has been trending downward across the week." /\
         0.35 <= mood_downtrend t) \/
      (m = "Slight downward mood trend detected." /\
         0.20 <= mood_downtrend t /\ mood_downtrend t < 0.35).
Proof.
  destruct (calculate_burnout_risk_returns mood stress sleep energy cfg
              max_reasons debug) as (t & r & Ht & Hr & _ & _ & Hreasons).
  exists t, r. split; [done|]. split; [done|].
  intros m Hm. rewrite Hreasons in Hm.
  destruct (decide (top_candidates (reason_candidates t) max_reasons = []))
    as [E|E].
  { rewrite select_reasons_fallback in Hm by done.
    apply list_elem_of_singleton in Hm. by left. }
  rewrite select_reasons_top in Hm by done. right.
  apply list_elem_of_In, in_map_iff in Hm as (c & <- & Hc).
  apply list_elem_of_In in Hc.
  unfold top_candidates in Hc. apply elem_of_take in Hc as (i & Hc & _).
  apply list_elem_of_lookup_2 in Hc. rewrite sort_desc_perm in Hc.
  destruct (reason_candidates_gates t)
    as (g1 & g2 & g3 & g4 & Hg & H1 & H2 & H3 & H4).
  rewrite Hg in Hc.
  apply elem_of_app in Hc as [Hc|Hc];
    [destruct (gate_spec_justified _ _ _ _ _ _ _ _ _ H1 Hc) as [[-> ?]|[-> ?]];
       tauto|].
  apply elem_of_app in Hc as [Hc|Hc];
    [destruct (gate_spec_justified _ _ _ _ _ _ _ _ _ H2 Hc) as [[-> ?]|[-> ?]];
       tauto|].
  apply elem_of_app in Hc as [Hc|Hc];
    [destruct (gate_spec_justified _ _ _ _ _ _ _ _ _ H3 Hc) as [[-> ?]|[-> ?]];
       tauto|].
  destruct (gate_spec_justified _ _ _ _ _ _ _ _ _ H4 Hc) as [[-> ?]|[-> ?]];
    tauto.
Qed.

Lemma burnout_reasons_justified_witness :
  exists t,
    risk_terms [5; 5] [8; 8] [8; 8] [10; 10] DEFAULT_CFG = Ok t /\
    7 <= avg_stress t.
Proof.
  destruct (burnout_reasons_justified [5; 5] [8; 8] [8; 8] [10; 10]
              DEFAULT_CFG 3 false) as (t & r & Ht & Hr & Hjust).
  exists t. split; [exact Ht|].
  destruct (Hjust "High average stress over the past week.")
    as [H|[[_ H]|H]]; [|done|exact H|].
  - vm_compute in Hr. injection Hr as <-. simpl. by left.
  - vm_compute in Ht. injection Ht as <-.
    repeat (destruct H as [[H _]|H]; [done|]). by destruct H.
Defined.

(** ** The report and its keys *)

Lemma py_getitem_Some (data : gmap string (list Q)) (key : string)
    (v : list Q) :
  data !! key = Some v -> py_getitem data key = Ok v.
Proof. intros H. unfold py_getitem. by rewrite H. Qed.

Lemma py_getitem_None (data : gmap string (list Q)) (key : string) :
  data !! key = None -> py_getitem data key = Raise (KeyError key).
Proof. intros H. unfold py_getitem. by rewrite H. Qed.

Lemma generate_report_present (sqrtQ : Q -> Q) (data : gmap string (list Q))
    (cfg : ScoringConfig) (mood stress sleep energy : list Q) :
  data !! "mood" = Some mood -> data !! "stress" = Some stress ->
  data !! "sleep" = Some sleep -> data !! "energy" = Some energy ->
  returns (calculate_volatility sqrtQ mood cfg) ->
  exists v a b e,
    calculate_volatility sqrtQ mood cfg = Ok v /\
    calculate_stress_accumulation stress cfg = Ok a /\
    calculate_burnout_risk mood stress sleep energy cfg 3 false = Ok b /\
    calculate_emotional_battery stress energy = Ok e /\
    generate_report sqrtQ data cfg =
      Ok {| metrics := {| volatility := v; stress_accumulation := a;
                          burnout_risk := b; emotional_battery := e |};
            disclaimer := "Wellness insights only. Not medical diagnosis." |}.
Proof.
  intros Hmood Hstress Hsleep Henergy [v Hv].
  destruct (calculate_stress_accumulation_returns stress cfg) as (? & _ & Ha).
  destruct (calculate_burnout_risk_returns mood stress sleep energy cfg 3 false)
    as (? & b & _ & Hb & _).
  destruct (mean_returns stress) as [s Hs].
  destruct (mean_returns energy) as [e He].
  pose proof (calculate_emotional_battery_returns _ _ _ _ Hs He) as Hbat.
  eexists _, _, _, _.
  split; [exact Hv|]. split; [exact Ha|]. split; [exact Hb|].
  split; [exact Hbat|].
  unfold generate_report.
  rewrite (py_getitem_Some _ _ _ Hmood), bind_Ok.
  rewrite (py_getitem_Some _ _ _ Hstress), bind_Ok.
  rewrite (py_getitem_Some _ _ _ Hsleep), bind_Ok.
  rewrite (py_getitem_Some _ _ _ Henergy), bind_Ok.
  by rewrite Hv, bind_Ok, Ha, bind_Ok, Hb, bind_Ok, Hbat, bind_Ok.
Qed.

Lemma generate_report_raises (sqrtQ : Q -> Q) (data : gmap string (list Q))
    (cfg : ScoringConfig) (mood stress sleep energy : list Q) (e : exn) :
  data !! "mood" = Some mood -> data !! "stress" = Some stress ->
  data !! "sleep" = Some sleep -> data !! "energy" = Some energy ->
  calculate_volatility sqrtQ mood cfg = Raise e ->
  generate_report sqrtQ data cfg = Raise e.
Proof.
  intros Hmood Hstress Hsleep Henergy Hv.
  unfold generate_report.
  rewrite (py_getitem_Some _ _ _ Hmood), bind_Ok.
  rewrite (py_getitem_Some _ _ _ Hstress), bind_Ok.
  rewrite (py_getitem_Some _ _ _ Hsleep), bind_Ok.
  rewrite (py_getitem_Some _ _ _ Henergy), bind_Ok.
  by rewrite Hv.
Qed.

(** [generate_report] raises [KeyError] for the first missing key in the
    order mood, stress, sleep, energy, so it returns a report only when
    the mapping has the four keys.  With the four keys it returns a report
    or raises [OverflowError], and it returns whenever the entries of the
    four series are at most [10^150] in absolute value, also when a
    series is empty. *)
Theorem generate_report_keys (sqrtQ : Q -> Q) (data : gmap string (list Q))
    (cfg : ScoringConfig) :
  (returns (generate_report sqrtQ data cfg) ->
     is_Some (data !! "mood") /\ is_Some (data !! "stress") /\
     is_Some (data !! "sleep") /\ is_Some (data !! "energy")) /\
  (forall mood stress sleep energy,
     data !! "mood" = Some mood -> data !! "stress" = Some stress ->
     data !! "sleep" = Some sleep -> data !! "energy" = Some energy ->
     (returns (generate_report sqrtQ data cfg) \/
      generate_report sqrtQ data cfg = Raise OverflowError) /\
     (bounded_series mood -> bounded_series stress ->
      bounded_series sleep -> bounded_series energy ->
        returns (generate_report sqrtQ data cfg))) /\
  (data !! "mood" = None ->
     generate_report sqrtQ data cfg = Raise (KeyError "mood")) /\
  (is_Some (data !! "mood") -> data !! "stress" = None ->
     generate_report sqrtQ data cfg = Raise (KeyError "stress")) /\
  (is_Some (data !! "mood") -> is_Some (data !! "stress") ->
   data !! "sleep" = None ->
     generate_report sqrtQ data cfg = Raise (KeyError "sleep")) /\
  (is_Some (data !! "mood") -> is_Some (data !! "stress") ->
   is_Some (data !! "sleep") -> data !! "energy" = None ->
     generate_report sqrtQ data cfg = Raise (KeyError "energy")).
Proof.
  assert (forall e : exn, ~ returns (@Raise Report e)) as Hraise
    by (by intros e [r Hr]).
  destruct (data !! "mood") as [mood|] eqn:Hmood.
  2:{ assert (generate_report sqrtQ data cfg = Raise (KeyError "mood")) as H.
      { unfold generate_report. by rewrite (py_getitem_None _ _ Hmood). }
      rewrite H. split; [by intros ?%Hraise|].
      split; [by intros ? ? ? ? [=]|].
      split; [done|]. repeat split; by intros [? [=]]. }
  destruct (data !! "stress") as [stress|] eqn:Hstress.
  2:{ assert (generate_report sqrtQ data cfg = Raise (KeyError "stress")) as H.
      { unfold generate_report.
        rewrite (py_getitem_Some _ _ _ Hmood), bind_Ok.
        by rewrite (py_getitem_None _ _ Hstress). }
      rewrite H. split; [by intros ?%Hraise|].
      split; [by intros ? ? ? ? _ [=]|].
      split; [done|]. split; [done|].
      split; by intros _ [? [=]]. }
  destruct (data !! "sleep") as [sleep|] eqn:Hsleep.
  2:{ assert (generate_report sqrtQ data cfg = Raise (KeyError "sleep")) as H.
      { unfold generate_report.
        rewrite (py_getitem_Some _ _ _ Hmood), bind_Ok.
        rewrite (py_getitem_Some _ _ _ Hstress), bind_Ok.
        by rewrite (py_getitem_None _ _ Hsleep). }
      rewrite H. split; [by intros ?%Hraise|].
      split; [by intros ? ? ? ? _ _ [=]|].
      split; [done|]. split; [done|]. split; [done|].
      by intros _ _ [? [=]]. }
  destruct (data !! "energy") as [energy|] eqn:Henergy.
  2:{ assert (generate_report sqrtQ data cfg = Raise (KeyError "energy")) as H.
      { unfold generate_report.
        rewrite (py_getitem_Some _ _ _ Hmood), bind_Ok.
        rewrite (py_getitem_Some _ _ _ Hstress), bind_Ok.
        rewrite (py_getitem_Some _ _ _ Hsleep), bind_Ok.
        by rewrite (py_getitem_None _ _ Henergy). }
      rewrite H. split; [by intros ?%Hraise|].
      split; [by intros ? ? ? ? _ _ _ [=]|].
      by repeat split. }
  split; [by eauto|].
  split; [|by repeat split].
  intros ? ? ? ? [= <-] [= <-] [= <-] [= <-].
  assert (returns (calculate_volatility sqrtQ mood cfg) ->
          returns (generate_report sqrtQ data cfg)) as Hret.
  { intros Hv.
    destruct (generate_report_present sqrtQ data cfg mood stress sleep energy)
      as (v & a & b & e & _ & _ & _ & _ & ->); try done.
    apply returns_Ok. }
  split.
  - destruct (calculate_volatility_outcome sqrtQ mood cfg) as [Hv|Hv].
    + left. by apply Hret.
    + right. by apply (generate_report_raises sqrtQ data cfg mood stress
                         sleep energy).
  - intros Hb _ _ _. by apply Hret, calculate_volatility_bounded.
Qed.

Lemma generate_report_keys_witness :
  generate_report floor_sqrt {[ "mood" := [5; 6]; "stress" := [4; 4] ]}
    DEFAULT_CFG = Raise (KeyError "sleep") /\
  returns (generate_report floor_sqrt
             (demo_case [5; 6] [4; 4] [8; 7] [6; 6]) DEFAULT_CFG).
Proof.
  split.
  - destruct (generate_report_keys floor_sqrt
                {[ "mood" := [5; 6]; "stress" := [4; 4] ]} DEFAULT_CFG)
      as (_ & _ & _ & _ & Hsleep & _).
    apply Hsleep; [by eexists|by eexists|reflexivity].
  - destruct (generate_report_keys floor_sqrt
                (demo_case [5; 6] [4; 4] [8; 7] [6; 6]) DEFAULT_CFG)
      as (_ & Hpresent & _).
    destruct (Hpresent [5; 6] [4; 4] [8; 7] [6; 6]) as [_ Hret];
      try reflexivity.
    apply Hret;
      repeat (apply Forall_cons; split; [vm_compute; discriminate|]);
      constructor.
Defined.

(** The three demo cases of [scoring.py] get the labels that their names
    announce (Green, Yellow, Red); the stable case has a battery above 60
    and the high-risk case lists stress and sleep among its reasons. *)
Theorem demo_cases_labels (sqrtQ : Q -> Q) :
  exists ra rb rc,
    generate_report sqrtQ DEMO_CASE_A DEFAULT_CFG = Ok ra /\
    generate_report sqrtQ DEMO_CASE_B DEFAULT_CFG = Ok rb /\
    generate_report sqrtQ DEMO_CASE_C DEFAULT_CFG = Ok rc /\
    burnout_risk_label (burnout_risk (metrics ra)) = Green /\
    60 < emotional_battery (metrics ra) /\
    burnout_risk_label (burnout_risk (metrics rb)) = Yellow /\
    burnout_risk_label (burnout_risk (metrics rc)) = Red /\
    burnout_reasons (burnout_risk (metrics rc)) =
      ["High average stress over the past week.";
       "Significant sleep deficit compared to the 8-hour target.";
       "Low energy levels on average."].
Proof.
  assert (forall mood, bounded_series mood ->
            returns (calculate_volatility sqrtQ mood DEFAULT_CFG)) as Hvol
    by (intros mood; apply calculate_volatility_bounded).
  destruct (generate_report_present sqrtQ DEMO_CASE_A DEFAULT_CFG
              [7; 7; 6.5; 7; 7.5; 7; 7] [2; 2; 3; 2; 2; 3; 2]
              [8; 8; 8; 7.5; 8; 8; 8] [8; 8; 7.5; 8; 8; 7.5; 8])
    as (? & ? & ba & ea & _ & _ & Hba & Hea & ->); try reflexivity.
  { apply Hvol.
    repeat (apply Forall_cons; split; [vm_compute; discriminate|]).
    constructor. }
  destruct (generate_report_present sqrtQ DEMO_CASE_B DEFAULT_CFG
              [6; 6; 5.5; 6; 5; 5.5; 5] [5; 5; 6; 5; 6; 6; 5]
              [6.5; 6; 6; 6.5; 6; 6; 6] [6; 6; 5.5; 6; 5.5; 5; 5.5])
    as (? & ? & bb & ? & _ & _ & Hbb & _ & ->); try reflexivity.
  { apply Hvol.
    repeat (apply Forall_cons; split; [vm_compute; discriminate|]).
    constructor. }
  destruct (generate_report_present sqrtQ DEMO_CASE_C DEFAULT_CFG
              [1; 5.5; 5; 4; 3.5; 3; 2.5] [8; 8.5; 9; 8.5; 9; 9; 8.5]
              [4.5; 1; 4; 1; 4; 4; 4.5] [4; 3.5; 3; 3; 1; 2; 2])
    as (? & ? & bc & ? & _ & _ & Hbc & _ & ->); try reflexivity.
  { apply Hvol.
    repeat (apply Forall_cons; split; [vm_compute; discriminate|]).
    constructor. }
  vm_compute in Hba, Hea, Hbb, Hbc.
  injection Hba as <-. injection Hea as <-.
  injection Hbb as <-. injection Hbc as <-.
  eexists _, _, _. repeat (split; [reflexivity|]). reflexivity.
Qed.

(** * The endpoints of [main.py] *)

(** ** [calculate_metrics] *)

Lemma py_len_map {A B} (f : A -> B) (l : list A) :
  py_len (map f l) = py_len l.
Proof. unfold py_len. by rewrite length_map. Qed.

Lemma accumulation_loop_length (curr : Q) (logs : list Main.DailyLogSchema) :
  length (Main.accumulation_loop curr logs) = length logs.
Proof.
  revert curr. induction logs as [|l logs IH]; intros curr; simpl; [done|].
  by rewrite IH.
Qed.

Lemma integer_column_bounded (v : Z) :
  Main.integer_column v = true -> Qabs (inject_Z v) <= series_bound.
Proof.
  unfold Main.integer_column. intros [Hlo Hhi]%andb_true_iff.
  apply Z.leb_le in Hlo, Hhi.
  assert (2 ^ 31 <= 10 ^ 150)%Z as Hpow by (vm_compute; congruence).
  apply Qabs_Qle_condition. unfold series_bound.
  rewrite <- inject_Z_opp, <- !Zle_Qle.
  set (a := (2 ^ 31)%Z) in *. set (b := (10 ^ 150)%Z) in *.
  clearbody a b. lia.
Qed.

Lemma storable_moods_bounded (req : Main.AnalysisRequest) :
  forallb Main.storable (stored_rows req) = true ->
  bounded_series (map (fun l => inject_Z (Main.mood l)) (Main.logs req)).
Proof.
  unfold stored_rows, bounded_series. rewrite forallb_forall. intros H.
  apply List.Forall_forall. intros x (l & <- & Hl)%in_map_iff.
  apply integer_column_bounded.
  specialize (H _ (in_map _ _ _ Hl)). unfold Main.storable in H. simpl in H.
  by apply andb_true_iff in H as [[[_ H]%andb_true_iff _]%andb_true_iff _].
Qed.

Lemma calculate_metrics_400 (sqrtQ : Q -> Q) (req : Main.AnalysisRequest)
    (db : Main.Database) :
  (length (Main.logs req) < 2)%nat ->
  Main.calculate_metrics sqrtQ req db
    = Raise (HTTPException 400 "Insufficient data").
Proof.
  intros H. unfold Main.calculate_metrics. cbv zeta.
  by rewrite (proj2 (Nat.ltb_lt _ _) H).
Qed.

Lemma calculate_metrics_401 (sqrtQ : Q -> Q) (req : Main.AnalysisRequest)
    (db : Main.Database) :
  (2 <= length (Main.logs req))%nat ->
  Main.email req ∉ Main.users db ->
  Main.calculate_metrics sqrtQ req db
    = Raise (HTTPException 401 "User not registered. Please register first.").
Proof.
  intros H Hreg. unfold Main.calculate_metrics. cbv zeta.
  rewrite (proj2 (Nat.ltb_ge _ _) H).
  by rewrite (bool_decide_eq_false_2 _ Hreg).
Qed.

Lemma calculate_metrics_refused (sqrtQ : Q -> Q) (req : Main.AnalysisRequest)
    (db : Main.Database) :
  (2 <= length (Main.logs req))%nat ->
  Main.email req ∈ Main.users db ->
  forallb Main.storable (stored_rows req) = false ->
  Main.calculate_metrics sqrtQ req db = Raise DataError.
Proof.
  intros H Hreg Hst. unfold Main.calculate_metrics, Main.commit. cbv zeta.
  rewrite (proj2 (Nat.ltb_ge _ _) H).
  rewrite (bool_decide_eq_true_2 _ Hreg). simpl negb. cbv iota.
  unfold stored_rows in Hst. by rewrite Hst.
Qed.

Lemma calculate_metrics_valid (sqrtQ : Q -> Q) (req : Main.AnalysisRequest)
    (db : Main.Database) :
  (2 <= length (Main.logs req))%nat ->
  Main.email req ∈ Main.users db ->
  forallb Main.storable (stored_rows req) = true ->
  exists resp,
    Main.calculate_metrics sqrtQ req db =
      Ok ({| Main.users := Main.users db;
             Main.mood_logs := Main.mood_logs db ++ stored_rows req |},
          resp) /\
    Main.volatilityScore resp <= 100 /\
    Main.burnoutLikelihood resp <= 100 /\
    Main.emotionalBattery resp <= 100 /\
    0 <= Main.loveStressBalance resp /\ Main.loveStressBalance resp <= 100 /\
    length (Main.stressAccumulation resp) = length (Main.logs req) /\
    Main.riskLevel resp ∈ ["STABLE"; "CAUTION"; "HIGH_RISK"].
Proof.
  intros Hlen Hreg Hst.
  pose proof (py_len_ge_2 _ Hlen) as Hn.
  destruct (proj2 (last_is_Some (Main.logs req))) as [last_log Hlast].
  { intros E. rewrite E in Hlen. simpl in Hlen. lia. }
  pose proof (storable_moods_bounded req Hst) as Hbounded.
  set (n := py_len (Main.logs req)) in *.
  set (moods := map (fun l => inject_Z (Main.mood l)) (Main.logs req)) in *.
  set (mean_mood := py_sum moods / n).
  set (variance := py_sum (map (fun x => (x - mean_mood) ^ 2) moods) / n).
  assert (0 <= variance) as Hvar.
  { apply Qdiv_nonneg; [|lra].
    apply py_sum_nonneg, List.Forall_forall. intros y Hy.
    apply in_map_iff in Hy as (z & <- & _). apply Qsquare_nonneg. }
  assert (mean moods = Ok mean_mood) as Hmean.
  { unfold mean_mood, n. rewrite <- (py_len_map (fun l => inject_Z (Main.mood l))).
    fold moods. destruct moods as [|x xs] eqn:E; [|apply mean_cons].
    apply (f_equal (@length Q)) in E. unfold moods in E.
    rewrite length_map in E. simpl in E. lia. }
  pose proof (mapM_py_pow_fits mean_mood moods
                (bounded_series_fits mean_mood moods Hbounded Hmean)) as Hsq.
  eexists. split.
  { unfold Main.calculate_metrics, Main.commit. cbv zeta.
    rewrite (proj2 (Nat.ltb_ge _ _) Hlen).
    rewrite (bool_decide_eq_true_2 _ Hreg). simpl negb. cbv iota.
    unfold stored_rows in Hst. rewrite Hst. fold (stored_rows req).
    rewrite !py_len_map. fold n moods.
    repeat first
      [ rewrite bind_Ok
      | rewrite (py_div_nonzero _ n) by lra
      | rewrite (py_div_nonzero _ (n - 1)) by lra
      | rewrite (py_div_nonzero _ 8) by done
      | rewrite (py_div_nonzero _ 10) by done
      | progress fold mean_mood
      | rewrite Hsq
      | progress fold variance
      | progress (unfold py_sqrt; rewrite (proj2 (Qle_bool_iff _ _) Hvar)) ].
    rewrite Hlast, bind_Ok. reflexivity. }
  simpl.
  split; [apply Q.le_min_l|]. split; [apply Q.le_min_l|].
  split; [apply Q.le_min_l|].
  split; [qminmax|]. split; [apply Q.le_min_l|].
  split; [apply accumulation_loop_length|].
  destruct (_ || _); [set_solver|]. destruct (_ || _); set_solver.
Qed.



(** Every answer of [calculate_metrics] has a volatility score, a burnout
    likelihood and a battery of at most 100, a balance in [[0, 100]], one
    accumulation value per log and one of the three risk levels. *)
Theorem calculate_metrics_ranges (sqrtQ : Q -> Q) (req : Main.AnalysisRequest)
    (db db' : Main.Database) (resp : Main.AnalysisResponse) :
  Main.calculate_metrics sqrtQ req db = Ok (db', resp) ->
  Main.volatilityScore resp <= 100 /\
  Main.burnoutLikelihood resp <= 100 /\
  Main.emotionalBattery resp <= 100 /\
  0 <= Main.loveStressBalance resp /\ Main.loveStressBalance resp <= 100 /\
  length (Main.stressAccumulation resp) = length (Main.logs req) /\
  Main.riskLevel resp ∈ ["STABLE"; "CAUTION"; "HIGH_RISK"].
Proof.
  intros Hr.
  destruct (Nat.lt_ge_cases (length (Main.logs req)) 2) as [H|H].
  { by rewrite calculate_metrics_400 in Hr. }
  destruct (decide (Main.email req ∈ Main.users db)) as [Hreg|Hreg].
  2:{ by rewrite calculate_metrics_401 in Hr. }
  destruct (forallb Main.storable (stored_rows req)) eqn:Hst.
  2:{ by rewrite calculate_metrics_refused in Hr. }
  destruct (calculate_metrics_valid sqrtQ req db H Hreg Hst)
    as (resp' & Hr' & Hranges).
  rewrite Hr in Hr'. by injection Hr' as -> ->.
Qed.

Lemma calculate_metrics_ranges_witness :
  exists db' resp,
    Main.calculate_metrics floor_sqrt sample_request sample_database
      = Ok (db', resp) /\
    Main.emotionalBattery resp <= 100 /\
    Main.riskLevel resp ∈ ["STABLE"; "CAUTION"; "HIGH_RISK"].
Proof.
  eexists _, _. split; [vm_compute; reflexivity|].
  match goal with
  | |- ?b <= 100 /\ _ =>
      match b with
      | Main.emotionalBattery ?resp =>
          destruct (calculate_metrics_ranges floor_sqrt sample_request
                      sample_database
                      {| Main.users := Main.users sample_database;
                         Main.mood_logs := stored_rows sample_request |}
                      resp) as (_ & _ & Hbat & _ & _ & _ & Hrisk);
            [vm_compute; reflexivity|by split]
      end
  end.
Defined.

(** ** [register] and [login] *)

Lemma first_by_email_None (e : string) (users : list Auth.User) :
  Auth.first_by_email e users = None <->
  forall u, u ∈ users -> Auth.email u <> e.
Proof.
  unfold Auth.first_by_email.
  induction users as [|v users IH]; simpl.
  - split; [intros _ u Hu; by apply elem_of_nil in Hu|done].
  - destruct (bool_decide (Auth.email v = e)) eqn:E.
    + apply bool_decide_eq_true in E. split; [done|].
      intros H. exfalso. apply (H v); [by left|done].
    + apply bool_decide_eq_false in E. rewrite IH. split.
      * intros H u [->|Hu]%elem_of_cons; [done|by apply H].
      * intros H u Hu. apply H. by right.
Qed.

Lemma first_by_email_Some (e : string) (users : list Auth.User)
    (u : Auth.User) :
  Auth.first_by_email e users = Some u -> u ∈ users /\ Auth.email u = e.
Proof.
  unfold Auth.first_by_email. intros H.
  apply find_some in H as [Hin Hu].
  split; [by apply list_elem_of_In|by apply bool_decide_eq_true in Hu].
Qed.

Lemma first_by_email_new (e : string) (users : list Auth.User)
    (u : Auth.User) :
  Auth.first_by_email e users = None -> Auth.email u = e ->
  Auth.first_by_email e (users ++ [u]) = Some u.
Proof.
  unfold Auth.first_by_email. intros Hnone Hu.
  induction users as [|v users IH]; simpl in *.
  - by rewrite bool_decide_eq_true_2.
  - destruct (bool_decide (Auth.email v = e)); [done|by apply IH].
Qed.



(** After a successful registration, [login] with the same e-mail and
    password succeeds with the fixed token, and [login] with a password of
    another hash is refused with 401. *)
Theorem register_then_login (sha256_hexdigest : string -> string)
    (isoformat : Z -> string) (req : Auth.RegisterRequest)
    (users users' : list Auth.User) (new_id now : Z)
    (resp : Auth.RegisterResponse) :
  Auth.register sha256_hexdigest isoformat req users new_id now
    = Ok (users', resp) ->
  Auth.login sha256_hexdigest
    {| Auth.login_email := Auth.register_email req;
       Auth.login_password := Auth.register_password req |} users'
  = Ok {| Auth.login_status := "success";
          Auth.token := "love-care-token-2024";
          Auth.login_user_email := Auth.register_email req;
          Auth.login_user_name := Auth.before_at (Auth.register_email req) |}
  /\
  (forall p,
     sha256_hexdigest p <> sha256_hexdigest (Auth.register_password req) ->
     Auth.login sha256_hexdigest
       {| Auth.login_email := Auth.register_email req;
          Auth.login_password := p |} users'
     = Raise (HTTPException 401 "Invalid credentials")).
Proof.
  unfold Auth.register.
  destruct (Auth.first_by_email (Auth.register_email req) users) eqn:E;
    [done|].
  intros [= <- _].
  unfold Auth.login. simpl.
  rewrite (first_by_email_new _ _ _ E) by done. simpl.
  unfold Auth.hash_password. split.
  - by rewrite String.eqb_refl.
  - intros p Hp.
    destruct (String.eqb_spec (sha256_hexdigest (Auth.register_password req))
                (sha256_hexdigest p)) as [Heq|_]; [|done].
    by destruct Hp.
Qed.

Lemma register_then_login_witness :
  Auth.login (fun p => p)
    {| Auth.login_email := "new@example.org";
       Auth.login_password := "secret1" |}
    [{| Auth.id := 2; Auth.email := "new@example.org";
        Auth.password_hash := "secret1"; Auth.created_at := 10 |}]
  = Ok {| Auth.login_status := "success";
          Auth.token := "love-care-token-2024";
          Auth.login_user_email := "new@example.org";
          Auth.login_user_name := "new" |}.
Proof.
  apply (register_then_login (fun p => p) (fun _ => "")
           {| Auth.register_email := "new@example.org";
              Auth.register_password := "secret1" |} [] _ 2 10
           {| Auth.register_status := "success"; Auth.user_id := 2;
              Auth.user_email := "new@example.org";
              Auth.user_created_at := "" |}).
  reflexivity.
Defined.

(** [login] succeeds only for an e-mail that has a row whose stored hash
    is the hash of the given password; an e-mail without a row is refused
    with 401. *)
Theorem login_sound (sha256_hexdigest : string -> string)
    (req : Auth.LoginRequest) (users : list Auth.User) :
  (forall resp,
     Auth.login sha256_hexdigest req users = Ok resp ->
     exists u,
       u ∈ users /\
       Auth.email u = Auth.login_email req /\
       Auth.password_hash u = sha256_hexdigest (Auth.login_password req) /\
       Auth.login_user_email resp = Auth.login_email req /\
       Auth.token resp = "love-care-token-2024") /\
  ((forall u, u ∈ users -> Auth.email u <> Auth.login_email req) ->
     Auth.login sha256_hexdigest req users
       = Raise (HTTPException 401 "Invalid credentials")).
Proof.
  unfold Auth.login, Auth.hash_password. split.
  - intros resp.
    destruct (Auth.first_by_email (Auth.login_email req) users) as [u|] eqn:E;
      [|done].
    apply first_by_email_Some in E as [Hu He].
    destruct (String.eqb_spec (Auth.password_hash u)
                (sha256_hexdigest (Auth.login_password req))) as [Hh|Hh];
      [|done].
    simpl. intros [= <-]. exists u. simpl. by rewrite He.
  - intros Hnone. by rewrite (proj2 (first_by_email_None _ _) Hnone).
Qed.

Lemma login_sound_witness :
  Auth.login (fun p => p)
    {| Auth.login_email := "nobody@example.org";
       Auth.login_password := "secret1" |}
    [{| Auth.id := 2; Auth.email := "new@example.org";
        Auth.password_hash := "secret1"; Auth.created_at := 10 |}]
  = Raise (HTTPException 401 "Invalid credentials").
Proof.
  apply login_sound.
  intros u ->%list_elem_of_singleton. done.
Defined.

Lemma before_at_prefix (a b : string) :
  (forall n, String.get n a <> Some "@"%char) ->
  Auth.before_at (a +:+ "@" +:+ b) = a.
Proof.
  induction a as [|c a IH]; intros Hno; [done|]. simpl.
  destruct (Ascii.eqb_spec c "@"%char) as [->|_].
  - by destruct (Hno 0%nat).
  - f_equal. apply IH. intros n. apply (Hno (S n)).
Qed.

(** The name that [login] returns is the part of the e-mail before its
    first ["@"]. *)
Theorem login_user_name_local_part (sha256_hexdigest : string -> string)
    (req : Auth.LoginRequest) (users : list Auth.User)
    (resp : Auth.LoginResponse) (a b : string) :
  Auth.login sha256_hexdigest req users = Ok resp ->
  Auth.login_email req = a +:+ "@" +:+ b ->
  (forall n, String.get n a <> Some "@"%char) ->
  Auth.login_user_name resp = a.
Proof.
  unfold Auth.login. intros Hr He Hno.
  destruct (Auth.first_by_email (Auth.login_email req) users) as [u|] eqn:E;
    [|done].
  apply first_by_email_Some in E as [_ Hu].
  destruct (negb _); [done|]. injection Hr as <-. simpl.
  rewrite Hu, He. by apply before_at_prefix.
Qed.

Lemma login_user_name_local_part_witness :
  Auth.login_user_name
    {| Auth.login_status := "success";
       Auth.token := "love-care-token-2024";
       Auth.login_user_email := "new@example.org";
       Auth.login_user_name := Auth.before_at "new@example.org" |} = "new".
Proof.
  apply (login_user_name_local_part (fun p => p)
           {| Auth.login_email := "new@example.org";
              Auth.login_password := "secret1" |}
           [{| Auth.id := 2; Auth.email := "new@example.org";
               Auth.password_hash := "secret1"; Auth.created_at := 10 |}]
           _ "new" "example.org"); [reflexivity|reflexivity|].
  intros [|[|[|n]]]; simpl; discriminate.
Defined.


